(** * CIFAR-100 preprocessing pipelines (utils/datasets/cifar100_dataset.py)

    A shallow embedding of the four functions of the module,
    [build_image_map], [create_preprocess_fn], [get_federated_datasets] and
    [get_centralized_datasets], together with the small part of the Python
    object model and of the TensorFlow / TensorFlow Federated interfaces
    they are written against.

    - Python values that reach the dynamic checks ([isinstance], [tuple],
      [len], indexing) are values of [obj]; arguments annotated [int] are
      integers of [Z].
    - [raise] is the [Raise] outcome of [result]; the functions that call
      the dataset provider run in [io], which threads the trace of provider
      calls and keeps it when an exception is raised.
    - TensorFlow calls build graph nodes: [tensor] for image operations,
      [Dataset] for [tf.data] stages.  What a graph computes is given
      separately by [eval], over an arbitrary runtime.
    - The definitions follow the statements of the module.  What
      TensorFlow itself raises while it traces a computation or runs a
      pipeline (a batch size of 0, sizes that are not integers, a crop
      size of the wrong rank) is not decided by the module: the image
      operations can fail in [eval], and tracing is a parameter of
      [create_preprocess_fn_traced].  A statement that a call returns
      datasets describes what the module builds once its own checks
      pass. *)

From Stdlib Require Import ZArith List String Ascii Bool Lia.
Import ListNotations.

#[local] Set Warnings "-register-all".

Local Open Scope string_scope.
Local Open Scope list_scope.
Local Open Scope Z_scope.

(** ** Python objects and exceptions *)

Inductive obj : Type :=
| PyInt (z : Z)
| PyBool (b : bool)
| PyNone
| PyStr (s : string)
| PyTuple (items : list obj)
| PyList (items : list obj)
| PyType (name : string).

(** The argument of an exception: a literal message, or the template and
    arguments of a [str.format] call (left unrendered). *)
Inductive message : Type :=
| Literal (s : string)
| Format (template : string) (args : list obj).

Inductive exn : Type :=
| TypeError (msg : message)
| ValueError (msg : message)
| IndexError (msg : message)
| InvalidArgumentError (msg : message).

Inductive result (A : Type) : Type :=
| Ok (a : A)
| Raise (e : exn).
Arguments Ok {A} a.
Arguments Raise {A} e.

Definition bind {A B : Type} (m : result A) (k : A -> result B) : result B :=
  match m with
  | Ok a => k a
  | Raise e => Raise e
  end.

Declare Scope py_scope.
Delimit Scope py_scope with py.
Notation "x <- m ;; k" := (bind m (fun x => k))
  (at level 61, m at next level, right associativity) : py_scope.

(** [try: m except: raise e] with a bare [except]. *)
Definition try_except_raise {A : Type} (m : result A) (e : exn) : result A :=
  match m with
  | Ok a => Ok a
  | Raise _ => Raise e
  end.

Definition succeeds {A : Type} (m : result A) : Prop :=
  exists a, m = Ok a.

Definition raises_ValueError {A : Type} (m : result A) : Prop :=
  exists msg, m = Raise (ValueError msg).

Definition raises_TypeError {A : Type} (m : result A) : Prop :=
  exists msg, m = Raise (TypeError msg).

Definition raises_IndexError {A : Type} (m : result A) : Prop :=
  exists msg, m = Raise (IndexError msg).

(** [type(x)] *)
Definition type (x : obj) : obj :=
  match x with
  | PyInt _ => PyType "int"
  | PyBool _ => PyType "bool"
  | PyNone => PyType "NoneType"
  | PyStr _ => PyType "str"
  | PyTuple _ => PyType "tuple"
  | PyList _ => PyType "list"
  | PyType _ => PyType "type"
  end.

(** [isinstance(x, collections.Iterable)] *)
Definition isinstance_Iterable (x : obj) : bool :=
  match x with
  | PyStr _ | PyTuple _ | PyList _ => true
  | PyInt _ | PyBool _ | PyNone | PyType _ => false
  end.

(** [isinstance(x, bool)] *)
Definition isinstance_bool (x : obj) : bool :=
  match x with
  | PyBool _ => true
  | _ => false
  end.

(** Truth value of an object, and [not x]. *)
Definition truth (x : obj) : bool :=
  match x with
  | PyInt z => negb (z =? 0)
  | PyBool b => b
  | PyNone => false
  | PyStr s => negb (String.eqb s "")
  | PyTuple items | PyList items => negb (Nat.eqb (List.length items) 0)
  | PyType _ => true
  end.

Definition not_ (x : obj) : bool := negb (truth x).

Fixpoint chars (s : string) : list obj :=
  match s with
  | EmptyString => []
  | String c s' => PyStr (String c EmptyString) :: chars s'
  end.

(** [tuple(x)]: the items of an iterable, [TypeError] otherwise. *)
Definition tuple (x : obj) : result (list obj) :=
  match x with
  | PyTuple items | PyList items => Ok items
  | PyStr s => Ok (chars s)
  | _ => Raise (TypeError (Format "'{}' object is not iterable" [type x]))
  end.

(** [len(t)] of a tuple. *)
Definition len (t : list obj) : Z := Z.of_nat (List.length t).

(** [t[i]] for a tuple [t] and a non-negative literal index [i]. *)
Definition getitem (t : list obj) (i : nat) : result obj :=
  match nth_error t i with
  | Some x => Ok x
  | None => Raise (IndexError (Literal "tuple index out of range"))
  end.

(** ** TensorFlow graph nodes *)

Inductive dtype : Type := float32 | int64 | uint8.

(** [tff.TensorType(dtype, shape)] *)
Record TensorType : Type := {
  tt_dtype : dtype;
  tt_shape : list Z
}.

(** A tensor inside a [Dataset.map] function: a component of the element
    the function is applied to, or the output of an operation. *)
Inductive tensor : Type :=
| Component (key : string)
| Cast (x : tensor) (d : dtype)
| RandomCrop (value : tensor) (size : list obj)
| RandomFlipLeftRight (image : tensor)
| ResizeWithCropOrPad (image : tensor) (target_height target_width : obj)
| PerImageStandardization (image : tensor).

(** A dataset element with the three features of CIFAR-100. *)
Record example : Type := {
  coarse_label : tensor;
  image : tensor;
  label : tensor
}.

Module tf.
Definition cast (x : tensor) (d : dtype) : tensor := Cast x d.

Module image.
Definition random_crop (value : tensor) (size : list obj) : tensor :=
  RandomCrop value size.
Definition random_flip_left_right (image : tensor) : tensor :=
  RandomFlipLeftRight image.
Definition resize_with_crop_or_pad
    (image : tensor) (target_height target_width : obj) : tensor :=
  ResizeWithCropOrPad image target_height target_width.
Definition per_image_standardization (image : tensor) : tensor :=
  PerImageStandardization image.
End image.

(** [tf.data.experimental.AUTOTUNE] *)
Definition AUTOTUNE : Z := -1.
End tf.

(** The type of the functions returned by [build_image_map]. *)
Definition ImageMap : Type := example -> result (tensor * tensor).

Inductive split : Type := Train | Test.

(** [tf.data.Dataset] values, as the chain of stages that builds them. *)
Inductive Dataset : Type :=
| ClientDataset (s : split) (client_id : string)
| AllClientsDataset (s : split)
| Shuffle (input : Dataset) (buffer_size : Z)
| Repeat (input : Dataset) (count : Z)
| Batch (input : Dataset) (batch_size : Z)
| Map (input : Dataset) (map_func : ImageMap) (num_parallel_calls : Z).

(** A [tff.Computation] made by [tff.tf_computation]: the declared element
    type of its sequence parameter, and the decorated function. *)
Record Computation : Type := {
  parameter_type : list (string * TensorType);
  call : Dataset -> Dataset
}.

(** ** The dataset provider

    [tff.simulation.datasets.cifar100.load_data()] returns the two raw
    [ClientData] splits; each call is recorded in the trace. *)

Inductive event : Type := LoadData.

Definition trace : Type := list event.

Definition io (A : Type) : Type := trace -> trace * result A.

Definition io_bind {A B : Type} (m : io A) (k : A -> io B) : io B :=
  fun t =>
    match m t with
    | (t', Ok a) => k a t'
    | (t', Raise e) => (t', Raise e)
    end.

Definition lift {A : Type} (m : result A) : io A := fun t => (t, m).

Definition io_ret {A : Type} (a : A) : io A := lift (Ok a).

Definition io_raise {A : Type} (e : exn) : io A := lift (Raise e).

Declare Scope io_scope.
Delimit Scope io_scope with io.
Notation "x <- m ;; k" := (io_bind m (fun x => k))
  (at level 61, m at next level, right associativity) : io_scope.
Notation "' pat <- m ;; k" := (io_bind m (fun x => match x with pat => k end))
  (at level 61, pat pattern, m at next level, right associativity) : io_scope.

(** The raw federated splits of the provider. *)
Inductive ClientData : Type := Cifar100 (s : split).

(** [ClientData.preprocess(fn)]: a split with a computation attached. *)
Record PreprocessClientData : Type := {
  raw_client_data : ClientData;
  preprocess_fn : Computation
}.

Definition load_data : io (ClientData * ClientData) :=
  fun t => (t ++ [LoadData], Ok (Cifar100 Train, Cifar100 Test)).

Definition preprocess (cd : ClientData) (fn : Computation)
  : PreprocessClientData :=
  {| raw_client_data := cd; preprocess_fn := fn |}.

Definition create_tf_dataset_from_all_clients (cd : ClientData) : Dataset :=
  match cd with
  | Cifar100 s => AllClientsDataset s
  end.

(** Retrieval of one client's data from a preprocessed split applies the
    attached computation to that client's raw dataset. *)
Definition create_tf_dataset_for_client
    (cd : PreprocessClientData) (client_id : string) : Dataset :=
  match raw_client_data cd with
  | Cifar100 s => call (preprocess_fn cd) (ClientDataset s client_id)
  end.

(** ** The module *)

Definition CIFAR_SHAPE : list obj := [PyInt 32; PyInt 32; PyInt 3].
Definition TOTAL_FEATURE_SIZE : Z := 32 * 32 * 3.
Definition NUM_EXAMPLES_PER_CLIENT : Z := 500.

(** The two alternative definitions of the inner function [crop_fn]. *)
Definition crop_fn_distort (crop_shape : list obj) (image : tensor)
  : result tensor :=
  let image := tf.image.random_crop image crop_shape in
  let image := tf.image.random_flip_left_right image in
  Ok image.

Definition crop_fn_resize (crop_shape : list obj) (image : tensor)
  : result tensor :=
  (target_height <- getitem crop_shape 1 ;;
   target_width <- getitem crop_shape 2 ;;
   Ok (tf.image.resize_with_crop_or_pad image target_height target_width))%py.

Definition build_image_map (crop_shape : list obj) (distort : bool)
  : ImageMap :=
  let crop_fn := if distort then crop_fn_distort crop_shape
                 else crop_fn_resize crop_shape in
  let image_map (example : example) : result (tensor * tensor) :=
    (let image := tf.cast (image example) float32 in
     image <- crop_fn image ;;
     let image := tf.image.per_image_standardization image in
     Ok (image, label example))%py in
  image_map.

Definition create_preprocess_fn
    (num_epochs batch_size shuffle_buffer_size : Z)
    (crop_shape : list obj) (distort_image : bool) (num_parallel_calls : Z)
  : result Computation :=
  if num_epochs <? 1 then
    Raise (ValueError (Literal "num_epochs must be a positive integer."))
  else
    let shuffle_buffer_size :=
      if shuffle_buffer_size <=? 1 then 1 else shuffle_buffer_size in
    let feature_dtypes :=
      [("coarse_label", {| tt_dtype := int64; tt_shape := [] |});
       ("image", {| tt_dtype := uint8; tt_shape := [32; 32; 3] |});
       ("label", {| tt_dtype := int64; tt_shape := [] |})] in
    let image_map_fn := build_image_map crop_shape distort_image in
    let preprocess_fn (dataset : Dataset) : Dataset :=
      Map (Batch (Repeat (Shuffle dataset shuffle_buffer_size) num_epochs)
                 batch_size)
          image_map_fn num_parallel_calls in
    Ok {| parameter_type := feature_dtypes; call := preprocess_fn |}.

Definition get_federated_datasets
    (train_client_batch_size test_client_batch_size : Z)
    (train_client_epochs_per_round test_client_epochs_per_round : Z)
    (train_shuffle_buffer_size test_shuffle_buffer_size : Z)
    (crop_shape serializable : obj)
  : io (PreprocessClientData * PreprocessClientData) :=
  (if negb (isinstance_Iterable crop_shape) then
     io_raise (TypeError (Literal "Argument crop_shape must be an iterable."))
   else
   crop_shape <- lift (tuple crop_shape) ;;
   if negb (len crop_shape =? 3) then
     io_raise (ValueError (Literal
       "The crop_shape must have length 3, corresponding to a tensor of shape [height, width, channels]."))
   else
   if negb (isinstance_bool serializable) then
     io_raise (TypeError (Format
       "serializable must be a Boolean; you passed {} of type {}."
       [serializable; type serializable]))
   else
   if train_client_epochs_per_round <? 1 then
     io_raise (ValueError (Literal
       "train_client_epochs_per_round must be a positive integer."))
   else
   if test_client_epochs_per_round <? 0 then
     io_raise (ValueError (Literal
       "test_client_epochs_per_round must be a positive integer."))
   else
   let train_shuffle_buffer_size :=
     if train_shuffle_buffer_size <=? 1 then 1
     else train_shuffle_buffer_size in
   let test_shuffle_buffer_size :=
     if test_shuffle_buffer_size <=? 1 then 1
     else test_shuffle_buffer_size in

   '(cifar_train, cifar_test) <- load_data ;;
   let train_crop_shape := [PyInt train_client_batch_size] ++ crop_shape in
   let test_crop_shape := [PyInt test_client_batch_size] ++ crop_shape in

   train_preprocess_fn <- lift (create_preprocess_fn
     train_client_epochs_per_round
     train_client_batch_size
     train_shuffle_buffer_size
     train_crop_shape
     (not_ serializable)
     tf.AUTOTUNE) ;;

   test_preprocess_fn <- lift (create_preprocess_fn
     test_client_epochs_per_round
     test_client_batch_size
     test_shuffle_buffer_size
     test_crop_shape
     false
     tf.AUTOTUNE) ;;

   let cifar_train := preprocess cifar_train train_preprocess_fn in
   let cifar_test := preprocess cifar_test test_preprocess_fn in
   io_ret (cifar_train, cifar_test))%io.

Definition get_centralized_datasets
    (train_batch_size test_batch_size : Z)
    (train_shuffle_buffer_size test_shuffle_buffer_size : Z)
    (crop_shape : obj)
  : io (Dataset * Dataset) :=
  (crop_shape <- lift (try_except_raise (tuple crop_shape)
     (ValueError (Literal
       "Argument crop_shape must be able to coerced into a length 3 tuple."))) ;;
   if negb (len crop_shape =? 3) then
     io_raise (ValueError (Literal
       "The crop_shape must have length 3, corresponding to a tensor of shape [height, width, channels]."))
   else
   let train_shuffle_buffer_size :=
     if train_shuffle_buffer_size <=? 1 then 1
     else train_shuffle_buffer_size in
   let test_shuffle_buffer_size :=
     if test_shuffle_buffer_size <=? 1 then 1
     else test_shuffle_buffer_size in

   '(cifar_train, cifar_test) <- load_data ;;
   let cifar_train := create_tf_dataset_from_all_clients cifar_train in
   let cifar_test := create_tf_dataset_from_all_clients cifar_test in

   let train_crop_shape := [PyInt train_batch_size] ++ crop_shape in
   let test_crop_shape := [PyInt test_batch_size] ++ crop_shape in

   train_preprocess_fn <- lift (create_preprocess_fn
     1
     train_batch_size
     train_shuffle_buffer_size
     train_crop_shape
     true
     tf.AUTOTUNE) ;;
   let cifar_train := call train_preprocess_fn cifar_train in

   test_preprocess_fn <- lift (create_preprocess_fn
     1
     test_batch_size
     test_shuffle_buffer_size
     test_crop_shape
     false
     tf.AUTOTUNE) ;;
   let cifar_test := call test_preprocess_fn cifar_test in

   io_ret (cifar_train, cifar_test))%io.

(** ** Observations on pipelines *)

(** The placeholders a [Dataset.map] function is traced on. *)
Definition element : example :=
  {| coarse_label := Component "coarse_label";
     image := Component "image";
     label := Component "label" |}.

(** A tensor is stateful when a random operation takes part in it. *)
Fixpoint stateful (x : tensor) : bool :=
  match x with
  | Component _ => false
  | Cast x _ => stateful x
  | RandomCrop _ _ => true
  | RandomFlipLeftRight _ => true
  | ResizeWithCropOrPad x _ _ => stateful x
  | PerImageStandardization x => stateful x
  end.

(** The tensors computed from the component ["image"] alone. *)
Inductive over_image : tensor -> Prop :=
| over_component : over_image (Component "image")
| over_cast t d : over_image t -> over_image (Cast t d)
| over_random_crop t size : over_image t -> over_image (RandomCrop t size)
| over_random_flip t : over_image t -> over_image (RandomFlipLeftRight t)
| over_resize t h w : over_image t -> over_image (ResizeWithCropOrPad t h w)
| over_standardization t :
    over_image t -> over_image (PerImageStandardization t).

(** Whether a random operation takes part in the outputs of a map
    function. *)
Definition distorts (f : ImageMap) : result bool :=
  (out <- f element ;; Ok (stateful (fst out) || stateful (snd out)))%py.

(** The function of the last [map] stage of a dataset. *)
Definition map_func_of (d : Dataset) : option ImageMap :=
  match d with
  | Map _ f _ => Some f
  | _ => None
  end.

Inductive stage : Type :=
| shuffle_stage (buffer_size : Z)
| repeat_stage (count : Z)
| batch_stage (batch_size : Z)
| map_stage (map_func : ImageMap) (num_parallel_calls : Z).

(** The stages a dataset is built with on top of its source, in the order
    they were applied. *)
Fixpoint stages (d : Dataset) : list stage :=
  match d with
  | ClientDataset _ _ | AllClientsDataset _ => []
  | Shuffle d' n => stages d' ++ [shuffle_stage n]
  | Repeat d' n => stages d' ++ [repeat_stage n]
  | Batch d' n => stages d' ++ [batch_stage n]
  | Map d' f n => stages d' ++ [map_stage f n]
  end.

(** ** What a tensor graph computes

    The image operations are those of the TensorFlow runtime, taken here
    as an interface.  Random operations read and advance the state of the
    random generator; the others do not see it. *)

Record Runtime : Type := {
  value : Type;
  rng : Type;
  run_cast : value -> dtype -> result value;
  run_random_crop : value -> list obj -> rng -> result value * rng;
  run_random_flip_left_right : value -> rng -> result value * rng;
  run_resize_with_crop_or_pad : value -> obj -> obj -> result value;
  run_per_image_standardization : value -> result value
}.

(** One element of a dataset of CIFAR-100 records. *)
Record record (V : Type) : Type := {
  coarse_label_of : V;
  image_of : V;
  label_of : V
}.
Arguments coarse_label_of {V} r.
Arguments image_of {V} r.
Arguments label_of {V} r.

Section Eval.
Variable R : Runtime.

Definition run (A : Type) : Type := rng R -> result A * rng R.

Definition run_bind {A B : Type} (m : run A) (k : A -> run B) : run B :=
  fun g =>
    match m g with
    | (Ok a, g') => k a g'
    | (Raise e, g') => (Raise e, g')
    end.

Definition pure {A : Type} (m : result A) : run A := fun g => (m, g).

Definition component (x : record (value R)) (key : string)
  : result (value R) :=
  if String.eqb key "coarse_label" then Ok (coarse_label_of x)
  else if String.eqb key "image" then Ok (image_of x)
  else if String.eqb key "label" then Ok (label_of x)
  else Raise (InvalidArgumentError (Format "no component {}" [PyStr key])).

Fixpoint eval (x : record (value R)) (t : tensor) : run (value R) :=
  match t with
  | Component key => pure (component x key)
  | Cast t' d =>
      run_bind (eval x t') (fun v => pure (run_cast R v d))
  | RandomCrop t' size =>
      run_bind (eval x t') (fun v => run_random_crop R v size)
  | RandomFlipLeftRight t' =>
      run_bind (eval x t') (fun v => run_random_flip_left_right R v)
  | ResizeWithCropOrPad t' h w =>
      run_bind (eval x t')
        (fun v => pure (run_resize_with_crop_or_pad R v h w))
  | PerImageStandardization t' =>
      run_bind (eval x t')
        (fun v => pure (run_per_image_standardization R v))
  end.

(** One application of a map function to a record: the function is
    traced on [element], then both outputs are computed. *)
Definition apply_map (f : ImageMap) (x : record (value R))
  : run (value R * value R) :=
  match f element with
  | Raise e => pure (Raise e)
  | Ok (image, label) =>
      run_bind (eval x image) (fun vi =>
      run_bind (eval x label) (fun vl =>
      pure (Ok (vi, vl))))
  end.
End Eval.

Arguments eval {R} x t g.
Arguments apply_map {R} f x g.

(** ** A runtime over integer pixels

    Images are rows of pixels of channel values (height, width,
    channels); labels are scalars.  Pixel values 0..255 are exact in
    [float32], so [cast] keeps them; standardization is computed in fixed
    point (thousandths), with integer square roots. *)

Module IntRuntime.

Inductive ival : Type :=
| Scalar (z : Z)
| Image (rows : list (list (list Z))).

(** Keeps the central [target] items of [l], or pads [l] on both sides
    up to [target] items: the smaller half goes in front. *)
Definition center_crop_or_pad {A : Type} (pad : A) (target : nat)
    (l : list A) : list A :=
  let n := List.length l in
  if (target <=? n)%nat then
    firstn target (skipn ((n - target) / 2)%nat l)
  else
    List.repeat pad ((target - n) / 2)%nat ++ l ++
    List.repeat pad (target - n - (target - n) / 2)%nat.

Definition width_of (rows : list (list (list Z))) : nat :=
  List.length (hd [] rows).

Definition channels_of (rows : list (list (list Z))) : nat :=
  List.length (hd [] (hd [] rows)).

Definition resize_with_crop_or_pad (v : ival) (target_height target_width : obj)
  : result ival :=
  match v, target_height, target_width with
  | Image rows, PyInt h, PyInt w =>
      if (h <=? 0) || (w <=? 0) then
        Raise (ValueError (Literal "target_height and target_width must be > 0"))
      else
        let black := List.repeat 0 (channels_of rows) in
        let rows := List.map (center_crop_or_pad black (Z.to_nat w)) rows in
        Ok (Image (center_crop_or_pad (List.repeat black (Z.to_nat w))
                     (Z.to_nat h) rows))
  | _, _, _ => Raise (TypeError (Literal "expected an image and integer sizes"))
  end.

Definition next (g : Z) : Z := (g * 1103515245 + 12345) mod 2147483648.

Definition window {A : Type} (offset size : Z) (l : list A) : list A :=
  firstn (Z.to_nat size) (skipn (Z.to_nat offset) l).

Definition random_crop (v : ival) (size : list obj) (g : Z)
  : result ival * Z :=
  match v, size with
  | Image rows, [PyInt h; PyInt w; PyInt c] =>
      let H := Z.of_nat (List.length rows) in
      let W := Z.of_nat (width_of rows) in
      let C := Z.of_nat (channels_of rows) in
      if (0 <=? h) && (h <=? H) && (0 <=? w) && (w <=? W)
         && (0 <=? c) && (c <=? C) then
        let g1 := next g in
        let g2 := next g1 in
        let g3 := next g2 in
        let oh := g1 mod (H - h + 1) in
        let ow := g2 mod (W - w + 1) in
        let oc := g3 mod (C - c + 1) in
        (Ok (Image (List.map (fun row => List.map (window oc c) (window ow w row))
                             (window oh h rows))), g3)
      else
        (Raise (InvalidArgumentError (Literal "Need value.shape >= size")), g)
  | _, _ =>
      (Raise (InvalidArgumentError (Literal "size does not match the rank of value")), g)
  end.

Definition random_flip_left_right (v : ival) (g : Z) : result ival * Z :=
  match v with
  | Image rows =>
      let g1 := next g in
      (Ok (Image (if Z.even (g1 / 65536) then List.map (@rev _) rows else rows)), g1)
  | Scalar _ =>
      (Raise (ValueError (Literal "'image' must be at least three-dimensional.")), g)
  end.

Definition sum (l : list Z) : Z := fold_right Z.add 0 l.

(** [(x - mean) / max(stddev, 1/sqrt(n))], in thousandths. *)
Definition per_image_standardization (v : ival) : result ival :=
  match v with
  | Image rows =>
      let pixels := List.concat (List.concat rows) in
      let n := Z.of_nat (List.length pixels) in
      let s := sum pixels in
      let s2 := sum (List.map (fun x => x * x) pixels) in
      let adjusted := Z.max (Z.sqrt (n * s2 - s * s)) (Z.sqrt n) in
      Ok (Image (List.map (List.map (List.map
            (fun x => 1000 * (n * x - s) / adjusted))) rows))
  | Scalar _ =>
      Raise (ValueError (Literal "'image' must be at least three-dimensional."))
  end.

Definition runtime : Runtime :=
  {| value := ival;
     rng := Z;
     run_cast := fun v _ => Ok v;
     run_random_crop := random_crop;
     run_random_flip_left_right := random_flip_left_right;
     run_resize_with_crop_or_pad := resize_with_crop_or_pad;
     run_per_image_standardization := per_image_standardization |}.

(** A 4 x 4 image with one channel, and its record. *)
Definition sample_image : list (list (list Z)) :=
  [ [[12]; [200]; [31]; [7]];
    [[90]; [14]; [255]; [66]];
    [[3]; [128]; [77]; [240]];
    [[45]; [9]; [180]; [101]] ].

Definition sample : record ival :=
  {| coarse_label_of := Scalar 7;
     image_of := Image sample_image;
     label_of := Scalar 42 |}.

End IntRuntime.

(** ** Documented arguments

    The crop shapes of the docstrings, (height, width, 3) with no entry
    above (32, 32, 3), and the sizes TensorFlow takes: a batch size also
    becomes an entry of a crop size, an [int32]; epoch counts and buffer
    sizes are [int64]. *)

Definition documented_crop_shape (items : list obj) : Prop :=
  exists h w,
    items = [PyInt h; PyInt w; PyInt 3] /\ 1 <= h <= 32 /\ 1 <= w <= 32.

Definition documented_batch_size (n : Z) : Prop := 1 <= n <= 2 ^ 31 - 1.

Definition documented_count (n : Z) : Prop := 1 <= n <= 2 ^ 63 - 1.

(** ** Tracing

    [@tff.tf_computation] calls the function it decorates once, on a
    placeholder dataset, while [create_preprocess_fn] runs, and TensorFlow
    can reject the pipeline then.  [create_preprocess_fn] above is the
    function up to that point: its own check and the pipeline it hands to
    the decorator.  Which pipelines TensorFlow rejects is not decided by
    this module, so it is a parameter: [tracing fn] is the outcome of
    tracing [fn], [Ok tt] or the exception raised. *)

Definition tf_computation (tracing : Computation -> result unit)
    (fn : Computation) : result Computation :=
  (traced <- tracing fn ;; Ok fn)%py.

Definition create_preprocess_fn_traced
    (tracing : Computation -> result unit)
    (num_epochs batch_size shuffle_buffer_size : Z)
    (crop_shape : list obj) (distort_image : bool) (num_parallel_calls : Z)
  : result Computation :=
  (fn <- create_preprocess_fn num_epochs batch_size shuffle_buffer_size
           crop_shape distort_image num_parallel_calls ;;
   tf_computation tracing fn)%py.

(** The part of tracing that is this module's own: [Dataset.map] calls the
    map function on the placeholders of an element, so an exception that
    the map function raises by itself is raised while tracing. *)
Definition trace_map_function (fn : Computation) : result unit :=
  match map_func_of (call fn (AllClientsDataset Train)) with
  | Some f => (out <- f element ;; Ok tt)%py
  | None => Ok tt
  end.

(** * Properties *)

(** ** Results and the trace *)

Lemma tuple_Ok_Iterable (x : obj) (items : list obj) :
  tuple x = Ok items -> isinstance_Iterable x = true.
Proof.
  destruct x; simpl; intros H; try reflexivity; discriminate H.
Qed.

Lemma len_3 (items : list obj) :
  List.length items = 3%nat -> (len items =? 3) = true.
Proof.
  intros H. unfold len. rewrite H. reflexivity.
Qed.

Lemma len_not_3 (items : list obj) :
  List.length items <> 3%nat -> (len items =? 3) = false.
Proof.
  intros H. unfold len. apply Z.eqb_neq. lia.
Qed.

(** The buffer size after [if shuffle_buffer_size <= 1: shuffle_buffer_size = 1]. *)
Lemma normalized_small (s : Z) :
  s <= 1 -> (if s <=? 1 then 1 else s) = 1.
Proof.
  intros H. apply Z.leb_le in H. rewrite H. reflexivity.
Qed.

Lemma normalized_large (s : Z) :
  1 <= s -> (if s <=? 1 then 1 else s) = s.
Proof.
  intros H. destruct (Z.leb_spec s 1); lia.
Qed.

Lemma normalized_max (s : Z) :
  (if s <=? 1 then 1 else s) = Z.max 1 s.
Proof.
  destruct (Z.leb_spec s 1); lia.
Qed.

(** ** [build_image_map] *)

Lemma build_image_map_distort (crop_shape : list obj) (x : example) :
  build_image_map crop_shape true x =
  Ok (PerImageStandardization
        (RandomFlipLeftRight (RandomCrop (Cast (image x) float32) crop_shape)),
      label x).
Proof. reflexivity. Qed.

Lemma build_image_map_resize (crop_shape : list obj) (h w : obj) (x : example) :
  nth_error crop_shape 1 = Some h ->
  nth_error crop_shape 2 = Some w ->
  build_image_map crop_shape false x =
  Ok (PerImageStandardization
        (ResizeWithCropOrPad (Cast (image x) float32) h w),
      label x).
Proof.
  intros H1 H2. unfold build_image_map, crop_fn_resize, getitem.
  rewrite H1, H2. reflexivity.
Qed.

(** C1 (as the code has it): for a crop shape [(h, w, c)], the function built
    with [distort=False] casts the image to [float32], resizes it by
    [resize_with_crop_or_pad] and standardizes it, with no random operation;
    but the target height is [crop_shape[1] = w] and the target width is
    [crop_shape[2] = c], not the height [h] and width [w] of the shape. *)
Theorem build_image_map_resize_targets (h w c : obj) (x : example) :
  build_image_map [h; w; c] false x =
  Ok (PerImageStandardization
        (ResizeWithCropOrPad (Cast (image x) float32) w c),
      label x)
  /\ distorts (build_image_map [h; w; c] false) = Ok false.
Proof.
  split; reflexivity.
Qed.

(** ** [create_preprocess_fn] *)


(** The computation [create_preprocess_fn] returns when it returns one. *)
Lemma create_preprocess_fn_returns
    (num_epochs batch_size shuffle_buffer_size : Z)
    (crop_shape : list obj) (distort_image : bool) (num_parallel_calls : Z) :
  1 <= num_epochs ->
  exists fn,
    create_preprocess_fn num_epochs batch_size shuffle_buffer_size crop_shape
      distort_image num_parallel_calls = Ok fn
    /\ forall dataset,
        call fn dataset =
        Map (Batch (Repeat (Shuffle dataset (Z.max 1 shuffle_buffer_size))
                           num_epochs) batch_size)
            (build_image_map crop_shape distort_image) num_parallel_calls.
Proof.
  intros H. unfold create_preprocess_fn.
  destruct (Z.ltb_spec num_epochs 1) as [Hlt | _]; [lia |].
  eexists. split; [reflexivity |].
  intros dataset. simpl. rewrite normalized_max. reflexivity.
Qed.


(** The default arguments of the assemblers are documented ones. *)
Example defaults_are_documented :
  documented_crop_shape CIFAR_SHAPE
  /\ documented_batch_size 20 /\ documented_batch_size 100
  /\ documented_count 1 /\ documented_count NUM_EXAMPLES_PER_CLIENT.
Proof.
  split; [exists 32, 32; repeat split; lia |].
  unfold documented_batch_size, documented_count, NUM_EXAMPLES_PER_CLIENT.
  repeat split; lia.
Qed.

(** With the module's own part of tracing: the default arguments are
    accepted, and a crop shape of 2 items without distortion is rejected
    while [create_preprocess_fn] runs, by the [IndexError] of the map
    function. *)
Example create_preprocess_fn_traced_runs :
  succeeds
    (create_preprocess_fn_traced trace_map_function 1 20 500 CIFAR_SHAPE
       false tf.AUTOTUNE)
  /\ raises_IndexError
       (create_preprocess_fn_traced trace_map_function 1 20 500
          [PyInt 32; PyInt 32] false tf.AUTOTUNE).
Proof.
  split; eexists; reflexivity.
Qed.

(** C6: for a positive epoch count, the computation returned by
    [create_preprocess_fn] applies to its input dataset, in this order,
    [shuffle] (with the buffer size, raised to 1 when it is smaller), then
    [repeat] with the epoch count, then [batch] with the batch size, then
    [map] with the function built by [build_image_map] from the crop shape
    and the distortion flag. *)
Theorem create_preprocess_fn_stage_order
    (num_epochs batch_size shuffle_buffer_size : Z)
    (crop_shape : list obj) (distort_image : bool) (num_parallel_calls : Z) :
  1 <= num_epochs ->
  exists fn,
    create_preprocess_fn num_epochs batch_size shuffle_buffer_size crop_shape
      distort_image num_parallel_calls = Ok fn
    /\ forall dataset,
        call fn dataset =
        Map (Batch (Repeat (Shuffle dataset (Z.max 1 shuffle_buffer_size))
                           num_epochs) batch_size)
            (build_image_map crop_shape distort_image) num_parallel_calls
        /\ stages (call fn dataset) =
           stages dataset ++
           [shuffle_stage (Z.max 1 shuffle_buffer_size);
            repeat_stage num_epochs;
            batch_stage batch_size;
            map_stage (build_image_map crop_shape distort_image)
              num_parallel_calls].
Proof.
  intros H.
  destruct (create_preprocess_fn_returns num_epochs batch_size
              shuffle_buffer_size crop_shape distort_image num_parallel_calls H)
    as [fn [E Hcall]].
  exists fn. split; [exact E |].
  intros dataset. split; [apply Hcall |].
  rewrite Hcall. simpl. repeat rewrite <- app_assoc. reflexivity.
Qed.

Lemma create_preprocess_fn_stage_order_witness :
  exists fn,
    create_preprocess_fn 1 20 500 CIFAR_SHAPE false tf.AUTOTUNE = Ok fn
    /\ forall dataset,
        call fn dataset =
        Map (Batch (Repeat (Shuffle dataset (Z.max 1 500)) 1) 20)
            (build_image_map CIFAR_SHAPE false) tf.AUTOTUNE
        /\ stages (call fn dataset) =
           stages dataset ++
           [shuffle_stage (Z.max 1 500); repeat_stage 1; batch_stage 20;
            map_stage (build_image_map CIFAR_SHAPE false) tf.AUTOTUNE].
Proof.
  apply (create_preprocess_fn_stage_order 1 20 500 CIFAR_SHAPE false
           tf.AUTOTUNE).
  lia.
Defined.

(** ** [get_federated_datasets] *)

Section Federated.
Variables train_client_batch_size test_client_batch_size : Z.
Variables train_client_epochs_per_round test_client_epochs_per_round : Z.
Variables train_shuffle_buffer_size test_shuffle_buffer_size : Z.
Variables crop_shape serializable : obj.
Variable t : trace.

Let outcome : trace * result (PreprocessClientData * PreprocessClientData) :=
  get_federated_datasets
    train_client_batch_size test_client_batch_size
    train_client_epochs_per_round test_client_epochs_per_round
    train_shuffle_buffer_size test_shuffle_buffer_size
    crop_shape serializable t.

Lemma federated_not_iterable :
  isinstance_Iterable crop_shape = false ->
  outcome =
  (t, Raise (TypeError (Literal "Argument crop_shape must be an iterable."))).
Proof.
  intros H. unfold outcome, get_federated_datasets. rewrite H. reflexivity.
Qed.

Lemma federated_bad_length (items : list obj) :
  tuple crop_shape = Ok items ->
  List.length items <> 3%nat ->
  outcome =
  (t, Raise (ValueError (Literal
    "The crop_shape must have length 3, corresponding to a tensor of shape [height, width, channels]."))).
Proof.
  intros Ht Hl. unfold outcome, get_federated_datasets.
  rewrite (tuple_Ok_Iterable _ _ Ht). unfold io_bind, lift. simpl.
  rewrite Ht, (len_not_3 _ Hl). reflexivity.
Qed.

Lemma federated_not_bool (items : list obj) :
  tuple crop_shape = Ok items ->
  List.length items = 3%nat ->
  isinstance_bool serializable = false ->
  outcome =
  (t, Raise (TypeError (Format
    "serializable must be a Boolean; you passed {} of type {}."
    [serializable; type serializable]))).
Proof.
  intros Ht Hl Hb. unfold outcome, get_federated_datasets.
  rewrite (tuple_Ok_Iterable _ _ Ht). unfold io_bind, lift. simpl.
  rewrite Ht, (len_3 _ Hl). simpl. rewrite Hb. reflexivity.
Qed.

(** From here on the crop shape and the flag pass their checks. *)
Variable items : list obj.
Variable b : bool.
Hypothesis crop_shape_items : tuple crop_shape = Ok items.
Hypothesis crop_shape_length : List.length items = 3%nat.
Hypothesis serializable_bool : serializable = PyBool b.

Lemma federated_train_epochs :
  train_client_epochs_per_round < 1 ->
  outcome =
  (t, Raise (ValueError (Literal
    "train_client_epochs_per_round must be a positive integer."))).
Proof.
  intros H. unfold outcome, get_federated_datasets.
  rewrite (tuple_Ok_Iterable _ _ crop_shape_items).
  unfold io_bind, lift. simpl.
  rewrite crop_shape_items, (len_3 _ crop_shape_length), serializable_bool.
  simpl. apply Z.ltb_lt in H. rewrite H. reflexivity.
Qed.

Lemma federated_test_epochs_negative :
  1 <= train_client_epochs_per_round ->
  test_client_epochs_per_round < 0 ->
  outcome =
  (t, Raise (ValueError (Literal
    "test_client_epochs_per_round must be a positive integer."))).
Proof.
  intros H1 H2. unfold outcome, get_federated_datasets.
  rewrite (tuple_Ok_Iterable _ _ crop_shape_items).
  unfold io_bind, lift. simpl.
  rewrite crop_shape_items, (len_3 _ crop_shape_length), serializable_bool.
  simpl.
  destruct (Z.ltb_spec train_client_epochs_per_round 1); [lia |].
  apply Z.ltb_lt in H2. rewrite H2. reflexivity.
Qed.

(** Past its own checks, the function loads the data and then builds
    the two computations. *)
Lemma federated_checked :
  1 <= train_client_epochs_per_round ->
  0 <= test_client_epochs_per_round ->
  outcome =
  (t ++ [LoadData],
   (train_preprocess_fn <-
      create_preprocess_fn train_client_epochs_per_round
        train_client_batch_size
        (if train_shuffle_buffer_size <=? 1 then 1
         else train_shuffle_buffer_size)
        (PyInt train_client_batch_size :: items) (negb b) tf.AUTOTUNE ;;
    test_preprocess_fn <-
      create_preprocess_fn test_client_epochs_per_round
        test_client_batch_size
        (if test_shuffle_buffer_size <=? 1 then 1
         else test_shuffle_buffer_size)
        (PyInt test_client_batch_size :: items) false tf.AUTOTUNE ;;
    Ok (preprocess (Cifar100 Train) train_preprocess_fn,
        preprocess (Cifar100 Test) test_preprocess_fn))%py).
Proof.
  intros H1 H2. unfold outcome, get_federated_datasets.
  rewrite (tuple_Ok_Iterable _ _ crop_shape_items).
  unfold io_bind, lift. simpl.
  rewrite crop_shape_items, (len_3 _ crop_shape_length), serializable_bool.
  simpl.
  destruct (Z.ltb_spec train_client_epochs_per_round 1); [lia |].
  destruct (Z.ltb_spec test_client_epochs_per_round 0); [lia |].
  unfold bind.
  destruct (create_preprocess_fn train_client_epochs_per_round _ _ _ _ _);
    [| reflexivity].
  destruct (create_preprocess_fn test_client_epochs_per_round _ _ _ _ _);
    reflexivity.
Qed.

Lemma federated_test_epochs_zero :
  1 <= train_client_epochs_per_round ->
  test_client_epochs_per_round = 0 ->
  outcome =
  (t ++ [LoadData],
   Raise (ValueError (Literal "num_epochs must be a positive integer."))).
Proof.
  intros H1 H2. rewrite federated_checked by lia.
  destruct (create_preprocess_fn_returns train_client_epochs_per_round
              train_client_batch_size
              (if train_shuffle_buffer_size <=? 1 then 1
               else train_shuffle_buffer_size)
              (PyInt train_client_batch_size :: items) (negb b) tf.AUTOTUNE H1)
    as [fn [E _]].
  rewrite E, H2. reflexivity.
Qed.

Lemma federated_returns :
  1 <= train_client_epochs_per_round ->
  1 <= test_client_epochs_per_round ->
  exists train_preprocess_fn test_preprocess_fn,
    outcome =
    (t ++ [LoadData],
     Ok (preprocess (Cifar100 Train) train_preprocess_fn,
         preprocess (Cifar100 Test) test_preprocess_fn))
    /\ (forall dataset,
          call train_preprocess_fn dataset =
          Map (Batch (Repeat
                 (Shuffle dataset (Z.max 1 train_shuffle_buffer_size))
                 train_client_epochs_per_round) train_client_batch_size)
              (build_image_map (PyInt train_client_batch_size :: items)
                 (negb b))
              tf.AUTOTUNE)
    /\ (forall dataset,
          call test_preprocess_fn dataset =
          Map (Batch (Repeat
                 (Shuffle dataset (Z.max 1 test_shuffle_buffer_size))
                 test_client_epochs_per_round) test_client_batch_size)
              (build_image_map (PyInt test_client_batch_size :: items)
                 false)
              tf.AUTOTUNE).
Proof.
  intros H1 H2. rewrite federated_checked by lia.
  destruct (create_preprocess_fn_returns train_client_epochs_per_round
              train_client_batch_size
              (if train_shuffle_buffer_size <=? 1 then 1
               else train_shuffle_buffer_size)
              (PyInt train_client_batch_size :: items) (negb b) tf.AUTOTUNE H1)
    as [ftrain [Etrain Ctrain]].
  destruct (create_preprocess_fn_returns test_client_epochs_per_round
              test_client_batch_size
              (if test_shuffle_buffer_size <=? 1 then 1
               else test_shuffle_buffer_size)
              (PyInt test_client_batch_size :: items) false tf.AUTOTUNE H2)
    as [ftest [Etest Ctest]].
  exists ftrain, ftest. rewrite Etrain, Etest. split; [reflexivity |].
  split; intros dataset.
  - rewrite Ctrain, normalized_max. f_equal. f_equal. f_equal. f_equal. lia.
  - rewrite Ctest, normalized_max. f_equal. f_equal. f_equal. f_equal. lia.
Qed.
End Federated.

(** ** [get_centralized_datasets] *)

Section Centralized.
Variables train_batch_size test_batch_size : Z.
Variables train_shuffle_buffer_size test_shuffle_buffer_size : Z.
Variable crop_shape : obj.
Variable t : trace.

Let outcome : trace * result (Dataset * Dataset) :=
  get_centralized_datasets train_batch_size test_batch_size
    train_shuffle_buffer_size test_shuffle_buffer_size crop_shape t.

Lemma centralized_not_coercible :
  isinstance_Iterable crop_shape = false ->
  outcome =
  (t, Raise (ValueError (Literal
    "Argument crop_shape must be able to coerced into a length 3 tuple."))).
Proof.
  intros H. unfold outcome, get_centralized_datasets, io_bind, lift.
  destruct crop_shape; simpl in *; try discriminate H; reflexivity.
Qed.

Lemma centralized_bad_length (items : list obj) :
  tuple crop_shape = Ok items ->
  List.length items <> 3%nat ->
  outcome =
  (t, Raise (ValueError (Literal
    "The crop_shape must have length 3, corresponding to a tensor of shape [height, width, channels]."))).
Proof.
  intros Ht Hl. unfold outcome, get_centralized_datasets, io_bind, lift.
  rewrite Ht. simpl. rewrite (len_not_3 _ Hl). reflexivity.
Qed.

Lemma centralized_returns (items : list obj) :
  tuple crop_shape = Ok items ->
  List.length items = 3%nat ->
  exists train_preprocess_fn test_preprocess_fn,
    create_preprocess_fn 1 train_batch_size
      (if train_shuffle_buffer_size <=? 1 then 1
       else train_shuffle_buffer_size)
      (PyInt train_batch_size :: items) true tf.AUTOTUNE
    = Ok train_preprocess_fn
    /\ create_preprocess_fn 1 test_batch_size
         (if test_shuffle_buffer_size <=? 1 then 1
          else test_shuffle_buffer_size)
         (PyInt test_batch_size :: items) false tf.AUTOTUNE
       = Ok test_preprocess_fn
    /\ outcome =
       (t ++ [LoadData],
        Ok (call train_preprocess_fn (AllClientsDataset Train),
            call test_preprocess_fn (AllClientsDataset Test)))
    /\ call train_preprocess_fn (AllClientsDataset Train) =
       Map (Batch (Repeat
              (Shuffle (AllClientsDataset Train)
                 (Z.max 1 train_shuffle_buffer_size)) 1) train_batch_size)
           (build_image_map (PyInt train_batch_size :: items) true)
           tf.AUTOTUNE
    /\ call test_preprocess_fn (AllClientsDataset Test) =
       Map (Batch (Repeat
              (Shuffle (AllClientsDataset Test)
                 (Z.max 1 test_shuffle_buffer_size)) 1) test_batch_size)
           (build_image_map (PyInt test_batch_size :: items) false)
           tf.AUTOTUNE.
Proof.
  intros Ht Hl.
  eexists. eexists. split; [reflexivity |]. split; [reflexivity |].
  split.
  - unfold outcome, get_centralized_datasets, io_bind, lift.
    rewrite Ht. simpl. rewrite (len_3 _ Hl). reflexivity.
  - simpl. rewrite !normalized_max.
    split; f_equal; f_equal; f_equal; f_equal; lia.
Qed.

End Centralized.

(** ** Tensor graphs without random operations *)

Section Stateless.
Variable R : Runtime.
Variable x : record (value R).

(** A graph that is not stateful computes the same outcome from every
    state of the random generator, and leaves that state as it is. *)
Lemma eval_stateless (tn : tensor) :
  stateful tn = false ->
  exists r, forall g, eval x tn g = (r, g).
Proof.
  induction tn as [key | tn IH d | tn IH size | tn IH | tn IH h w | tn IH];
    simpl; intros Hs; try discriminate Hs.
  - eexists. intros g. reflexivity.
  - destruct (IH Hs) as [r Hr].
    exists (match r with Ok v => run_cast R v d | Raise e => Raise e end).
    intros g. unfold run_bind. rewrite Hr. destruct r; reflexivity.
  - destruct (IH Hs) as [r Hr].
    exists (match r with
            | Ok v => run_resize_with_crop_or_pad R v h w
            | Raise e => Raise e
            end).
    intros g. unfold run_bind. rewrite Hr. destruct r; reflexivity.
  - destruct (IH Hs) as [r Hr].
    exists (match r with
            | Ok v => run_per_image_standardization R v
            | Raise e => Raise e
            end).
    intros g. unfold run_bind. rewrite Hr. destruct r; reflexivity.
Qed.

Lemma apply_map_stateless (f : ImageMap) :
  distorts f = Ok false ->
  exists r, forall g, apply_map f x g = (r, g).
Proof.
  unfold distorts, apply_map.
  destruct (f element) as [[im lb] | e]; simpl; intros H.
  - injection H as H. apply orb_false_iff in H. destruct H as [Hi Hl].
    destruct (eval_stateless im Hi) as [ri Ei].
    destruct (eval_stateless lb Hl) as [rl El].
    exists (match ri, rl with
            | Ok vi, Ok vl => Ok (vi, vl)
            | Ok _, Raise e => Raise e
            | Raise e, _ => Raise e
            end).
    intros g. unfold run_bind. rewrite Ei.
    destruct ri; [| reflexivity]. rewrite El.
    destruct rl; reflexivity.
  - discriminate H.
Qed.
End Stateless.

(** ** Which checks raise, and when *)

Lemma Iterable_tuple_Ok (x : obj) :
  isinstance_Iterable x = true -> exists items, tuple x = Ok items.
Proof.
  destruct x; simpl; intros H; try discriminate H; eexists; reflexivity.
Qed.

Lemma isinstance_bool_PyBool (x : obj) :
  isinstance_bool x = true -> exists b, x = PyBool b.
Proof.
  destruct x; simpl; intros H; try discriminate H. eexists. reflexivity.
Qed.

(** C2 (as stated, refuted): with the default arguments and a test epoch
    count of 0, which is not negative, [get_federated_datasets] does not
    return: it raises a [ValueError]. *)
Lemma federated_test_epochs_zero_not_accepted :
  raises_ValueError
    (snd (get_federated_datasets 20 100 1 0 NUM_EXAMPLES_PER_CLIENT 1
            (PyTuple CIFAR_SHAPE) (PyBool false) []))
  /\ ~ succeeds
       (snd (get_federated_datasets 20 100 1 0 NUM_EXAMPLES_PER_CLIENT 1
               (PyTuple CIFAR_SHAPE) (PyBool false) [])).
Proof.
  split.
  - eexists. reflexivity.
  - intros [a E]. discriminate E.
Qed.

(** C2 (amended): with a crop shape and a flag that pass their checks,
    [get_federated_datasets] raises a [ValueError] before the load when
    [train_client_epochs_per_round] is less than 1, and its check on
    [test_client_epochs_per_round] raises exactly when that count is
    negative.  A test epoch count of 0 passes the check but is not accepted
    either: the call never returns. *)
Theorem federated_epoch_bounds
    (train_client_batch_size test_client_batch_size : Z)
    (train_client_epochs_per_round test_client_epochs_per_round : Z)
    (train_shuffle_buffer_size test_shuffle_buffer_size : Z)
    (crop_shape : obj) (items : list obj) (b : bool) (t : trace) :
  tuple crop_shape = Ok items ->
  List.length items = 3%nat ->
  (train_client_epochs_per_round < 1 ->
   get_federated_datasets train_client_batch_size test_client_batch_size
     train_client_epochs_per_round test_client_epochs_per_round
     train_shuffle_buffer_size test_shuffle_buffer_size
     crop_shape (PyBool b) t =
   (t, Raise (ValueError (Literal
     "train_client_epochs_per_round must be a positive integer."))))
  /\ (1 <= train_client_epochs_per_round ->
      (get_federated_datasets train_client_batch_size test_client_batch_size
         train_client_epochs_per_round test_client_epochs_per_round
         train_shuffle_buffer_size test_shuffle_buffer_size
         crop_shape (PyBool b) t =
       (t, Raise (ValueError (Literal
         "test_client_epochs_per_round must be a positive integer.")))
       <-> test_client_epochs_per_round < 0))
  /\ (test_client_epochs_per_round = 0 ->
      ~ succeeds
          (snd (get_federated_datasets train_client_batch_size
                  test_client_batch_size
                  train_client_epochs_per_round test_client_epochs_per_round
                  train_shuffle_buffer_size test_shuffle_buffer_size
                  crop_shape (PyBool b) t))).
Proof.
  intros Ht Hl.
  split.
  { intros H1.
    apply (federated_train_epochs _ _ _ _ _ _ _ _ _ items b Ht Hl eq_refl H1). }
  split.
  { intros H1. split.
    - intros E.
      destruct (Z.lt_ge_cases test_client_epochs_per_round 0) as [H2 | H2];
        [exact H2 |].
      destruct (Z.eq_dec test_client_epochs_per_round 0) as [H0 | H0].
      + rewrite (federated_test_epochs_zero _ _ _ _ _ _ _ _ _ items b Ht Hl
                   eq_refl H1 H0) in E.
        discriminate E.
      + assert (H3 : 1 <= test_client_epochs_per_round) by lia.
        destruct (federated_returns train_client_batch_size
                    test_client_batch_size _ _ train_shuffle_buffer_size
                    test_shuffle_buffer_size _ _ t items b Ht Hl eq_refl
                    H1 H3) as [f1 [f2 [E' _]]].
        rewrite E' in E. discriminate E.
    - intros H2.
      apply (federated_test_epochs_negative _ _ _ _ _ _ _ _ _ items b Ht Hl
               eq_refl H1 H2). }
  intros H0 [a E].
  destruct (Z.lt_ge_cases train_client_epochs_per_round 1) as [H1 | H1].
  - rewrite (federated_train_epochs _ _ _ _ _ _ _ _ _ items b Ht Hl
               eq_refl H1) in E.
    discriminate E.
  - rewrite (federated_test_epochs_zero _ _ _ _ _ _ _ _ _ items b Ht Hl
               eq_refl H1 H0) in E.
    discriminate E.
Qed.

Lemma federated_epoch_bounds_witness :
  (1 < 1 ->
   get_federated_datasets 20 100 1 0 NUM_EXAMPLES_PER_CLIENT 1
     (PyTuple CIFAR_SHAPE) (PyBool false) [] =
   ([], Raise (ValueError (Literal
     "train_client_epochs_per_round must be a positive integer."))))
  /\ (1 <= 1 ->
      (get_federated_datasets 20 100 1 0 NUM_EXAMPLES_PER_CLIENT 1
         (PyTuple CIFAR_SHAPE) (PyBool false) [] =
       ([], Raise (ValueError (Literal
         "test_client_epochs_per_round must be a positive integer.")))
       <-> 0 < 0))
  /\ (0 = 0 ->
      ~ succeeds
          (snd (get_federated_datasets 20 100 1 0 NUM_EXAMPLES_PER_CLIENT 1
                  (PyTuple CIFAR_SHAPE) (PyBool false) []))).
Proof.
  apply (federated_epoch_bounds 20 100 1 0 NUM_EXAMPLES_PER_CLIENT 1
           (PyTuple CIFAR_SHAPE) CIFAR_SHAPE false []).
  - reflexivity.
  - reflexivity.
Defined.

(** C8 (the failing input): with the default arguments and
    [test_client_epochs_per_round = 0], the epoch count is rejected only by
    [create_preprocess_fn], after [load_data] has been called. *)
Theorem federated_zero_test_epochs_raise_after_load :
  get_federated_datasets 20 100 1 0 NUM_EXAMPLES_PER_CLIENT 1
    (PyTuple CIFAR_SHAPE) (PyBool false) [] =
  ([LoadData],
   Raise (ValueError (Literal "num_epochs must be a positive integer."))).
Proof. reflexivity. Qed.

(** [get_centralized_datasets] with a crop shape of length 2. *)
Example centralized_length_2 :
  get_centralized_datasets 20 100 10000 1 (PyTuple [PyInt 32; PyInt 32]) [] =
  ([],
   Raise (ValueError (Literal
     "The crop_shape must have length 3, corresponding to a tensor of shape [height, width, channels]."))).
Proof. reflexivity. Qed.

(** ** Distortion *)

Lemma distorts_build_image_map (crop_shape : list obj) (distort : bool) :
  (3 <= List.length crop_shape)%nat ->
  distorts (build_image_map crop_shape distort) = Ok distort.
Proof.
  intros H. destruct distort; [reflexivity |].
  destruct crop_shape as [| a [| h [| w rest]]]; simpl in H; try lia.
  reflexivity.
Qed.

(** C3: when [get_federated_datasets] returns, the dataset served for a
    train client is the client's raw dataset through the pipeline whose map
    function is built with [distort = not serializable], so it distorts
    exactly when [serializable] is false; the one served for a test client
    has a map function built with [distort = False], which never distorts. *)
Theorem federated_distortion
    (train_client_batch_size test_client_batch_size : Z)
    (train_client_epochs_per_round test_client_epochs_per_round : Z)
    (train_shuffle_buffer_size test_shuffle_buffer_size : Z)
    (crop_shape : obj) (items : list obj) (serializable : bool) (t : trace) :
  tuple crop_shape = Ok items ->
  List.length items = 3%nat ->
  1 <= train_client_epochs_per_round ->
  1 <= test_client_epochs_per_round ->
  exists cifar_train cifar_test,
    get_federated_datasets train_client_batch_size test_client_batch_size
      train_client_epochs_per_round test_client_epochs_per_round
      train_shuffle_buffer_size test_shuffle_buffer_size
      crop_shape (PyBool serializable) t =
    (t ++ [LoadData], Ok (cifar_train, cifar_test))
    /\ (forall client_id,
          create_tf_dataset_for_client cifar_train client_id =
          Map (Batch (Repeat
                 (Shuffle (ClientDataset Train client_id)
                    (Z.max 1 train_shuffle_buffer_size))
                 train_client_epochs_per_round) train_client_batch_size)
              (build_image_map (PyInt train_client_batch_size :: items)
                 (negb serializable))
              tf.AUTOTUNE)
    /\ (forall client_id,
          create_tf_dataset_for_client cifar_test client_id =
          Map (Batch (Repeat
                 (Shuffle (ClientDataset Test client_id)
                    (Z.max 1 test_shuffle_buffer_size))
                 test_client_epochs_per_round) test_client_batch_size)
              (build_image_map (PyInt test_client_batch_size :: items) false)
              tf.AUTOTUNE)
    /\ (distorts (build_image_map (PyInt train_client_batch_size :: items)
                    (negb serializable)) = Ok true
        <-> serializable = false)
    /\ distorts (build_image_map (PyInt test_client_batch_size :: items)
                   false) = Ok false.
Proof.
  intros Ht Hl H1 H2.
  destruct (federated_returns train_client_batch_size test_client_batch_size
              _ _ train_shuffle_buffer_size test_shuffle_buffer_size
              _ _ t items serializable Ht Hl eq_refl H1 H2)
    as [ftrain [ftest [E [Ctrain Ctest]]]].
  exists (preprocess (Cifar100 Train) ftrain), (preprocess (Cifar100 Test) ftest).
  split; [exact E |].
  split; [intros client_id; apply Ctrain |].
  split; [intros client_id; apply Ctest |].
  rewrite !distorts_build_image_map by (simpl; lia).
  split; [| reflexivity].
  destruct serializable; simpl; split; intros H;
    try reflexivity; discriminate H.
Qed.

Lemma federated_distortion_witness :
  exists cifar_train cifar_test,
    get_federated_datasets 20 100 1 1 NUM_EXAMPLES_PER_CLIENT 1
      (PyTuple CIFAR_SHAPE) (PyBool true) [] =
    ([] ++ [LoadData], Ok (cifar_train, cifar_test))
    /\ (forall client_id,
          create_tf_dataset_for_client cifar_train client_id =
          Map (Batch (Repeat
                 (Shuffle (ClientDataset Train client_id)
                    (Z.max 1 NUM_EXAMPLES_PER_CLIENT)) 1) 20)
              (build_image_map (PyInt 20 :: CIFAR_SHAPE) (negb true))
              tf.AUTOTUNE)
    /\ (forall client_id,
          create_tf_dataset_for_client cifar_test client_id =
          Map (Batch (Repeat
                 (Shuffle (ClientDataset Test client_id) (Z.max 1 1)) 1) 100)
              (build_image_map (PyInt 100 :: CIFAR_SHAPE) false)
              tf.AUTOTUNE)
    /\ (distorts (build_image_map (PyInt 20 :: CIFAR_SHAPE) (negb true))
        = Ok true <-> true = false)
    /\ distorts (build_image_map (PyInt 100 :: CIFAR_SHAPE) false) = Ok false.
Proof.
  apply (federated_distortion 20 100 1 1 NUM_EXAMPLES_PER_CLIENT 1
           (PyTuple CIFAR_SHAPE) CIFAR_SHAPE true []).
  - reflexivity.
  - reflexivity.
  - lia.
  - lia.
Defined.

(** C4: when [get_centralized_datasets] returns, both datasets are built
    by computations that [create_preprocess_fn] makes for an epoch count of
    exactly 1 (their [repeat] stage has count 1); the train one has a map
    function built with [distort = True], which distorts, and the test one
    a map function built with [distort = False], which does not. *)
Theorem centralized_one_epoch_and_distortion
    (train_batch_size test_batch_size : Z)
    (train_shuffle_buffer_size test_shuffle_buffer_size : Z)
    (crop_shape : obj) (items : list obj) (t : trace) :
  tuple crop_shape = Ok items ->
  List.length items = 3%nat ->
  exists train_preprocess_fn test_preprocess_fn,
    create_preprocess_fn 1 train_batch_size
      (if train_shuffle_buffer_size <=? 1 then 1
       else train_shuffle_buffer_size)
      (PyInt train_batch_size :: items) true tf.AUTOTUNE
    = Ok train_preprocess_fn
    /\ create_preprocess_fn 1 test_batch_size
         (if test_shuffle_buffer_size <=? 1 then 1
          else test_shuffle_buffer_size)
         (PyInt test_batch_size :: items) false tf.AUTOTUNE
       = Ok test_preprocess_fn
    /\ get_centralized_datasets train_batch_size test_batch_size
         train_shuffle_buffer_size test_shuffle_buffer_size crop_shape t =
       (t ++ [LoadData],
        Ok (call train_preprocess_fn (AllClientsDataset Train),
            call test_preprocess_fn (AllClientsDataset Test)))
    /\ call train_preprocess_fn (AllClientsDataset Train) =
       Map (Batch (Repeat
              (Shuffle (AllClientsDataset Train)
                 (Z.max 1 train_shuffle_buffer_size)) 1) train_batch_size)
           (build_image_map (PyInt train_batch_size :: items) true)
           tf.AUTOTUNE
    /\ call test_preprocess_fn (AllClientsDataset Test) =
       Map (Batch (Repeat
              (Shuffle (AllClientsDataset Test)
                 (Z.max 1 test_shuffle_buffer_size)) 1) test_batch_size)
           (build_image_map (PyInt test_batch_size :: items) false)
           tf.AUTOTUNE
    /\ distorts (build_image_map (PyInt train_batch_size :: items) true)
       = Ok true
    /\ distorts (build_image_map (PyInt test_batch_size :: items) false)
       = Ok false.
Proof.
  intros Ht Hl.
  destruct (centralized_returns train_batch_size test_batch_size
              train_shuffle_buffer_size test_shuffle_buffer_size
              crop_shape t items Ht Hl)
    as [ftrain [ftest [E1 [E2 [E [Ctrain Ctest]]]]]].
  exists ftrain, ftest.
  rewrite !distorts_build_image_map by (simpl; lia).
  repeat split; assumption.
Qed.

Lemma centralized_one_epoch_and_distortion_witness :
  exists train_preprocess_fn test_preprocess_fn,
    create_preprocess_fn 1 20 (if 10000 <=? 1 then 1 else 10000)
      (PyInt 20 :: CIFAR_SHAPE) true tf.AUTOTUNE
    = Ok train_preprocess_fn
    /\ create_preprocess_fn 1 100 (if 1 <=? 1 then 1 else 1)
         (PyInt 100 :: CIFAR_SHAPE) false tf.AUTOTUNE
       = Ok test_preprocess_fn
    /\ get_centralized_datasets 20 100 10000 1 (PyList CIFAR_SHAPE) [] =
       ([] ++ [LoadData],
        Ok (call train_preprocess_fn (AllClientsDataset Train),
            call test_preprocess_fn (AllClientsDataset Test)))
    /\ call train_preprocess_fn (AllClientsDataset Train) =
       Map (Batch (Repeat
              (Shuffle (AllClientsDataset Train) (Z.max 1 10000)) 1) 20)
           (build_image_map (PyInt 20 :: CIFAR_SHAPE) true) tf.AUTOTUNE
    /\ call test_preprocess_fn (AllClientsDataset Test) =
       Map (Batch (Repeat
              (Shuffle (AllClientsDataset Test) (Z.max 1 1)) 1) 100)
           (build_image_map (PyInt 100 :: CIFAR_SHAPE) false) tf.AUTOTUNE
    /\ distorts (build_image_map (PyInt 20 :: CIFAR_SHAPE) true) = Ok true
    /\ distorts (build_image_map (PyInt 100 :: CIFAR_SHAPE) false) = Ok false.
Proof.
  apply (centralized_one_epoch_and_distortion 20 100 10000 1
           (PyList CIFAR_SHAPE) CIFAR_SHAPE []).
  - reflexivity.
  - reflexivity.
Defined.

(** ** Shuffle buffer sizes *)

(** C7: a shuffle buffer size of at most 1 is replaced by exactly 1, in
    [create_preprocess_fn], in [get_federated_datasets] (train and test
    sizes) and in [get_centralized_datasets] (train and test sizes).  Each
    call has the outcome of the same call with the size 1, so the
    replacement adds no exception; and the pipelines that are built
    shuffle with a buffer of exactly 1: the one [create_preprocess_fn]
    returns for a positive epoch count, the one served for a train (test)
    client when the train (test) size is at most 1, and the centralized
    train (test) dataset when the train (test) size is at most 1 (the
    assemblers being called with documented arguments otherwise). *)
Theorem shuffle_buffer_size_normalized
    (shuffle_buffer_size other_buffer_size : Z)
    (num_epochs batch_size : Z) (shape : list obj) (distort_image : bool)
    (num_parallel_calls : Z)
    (train_batch_size test_batch_size train_epochs test_epochs : Z)
    (crop_shape serializable : obj) (items : list obj) (b : bool)
    (t : trace) :
  shuffle_buffer_size <= 1 ->
  create_preprocess_fn num_epochs batch_size shuffle_buffer_size shape
    distort_image num_parallel_calls =
  create_preprocess_fn num_epochs batch_size 1 shape
    distort_image num_parallel_calls
  /\ (1 <= num_epochs ->
      exists fn,
        create_preprocess_fn num_epochs batch_size shuffle_buffer_size shape
          distort_image num_parallel_calls = Ok fn
        /\ forall dataset,
            call fn dataset =
            Map (Batch (Repeat (Shuffle dataset 1) num_epochs) batch_size)
                (build_image_map shape distort_image) num_parallel_calls)
  /\ get_federated_datasets train_batch_size test_batch_size
       train_epochs test_epochs shuffle_buffer_size other_buffer_size
       crop_shape serializable t =
     get_federated_datasets train_batch_size test_batch_size
       train_epochs test_epochs 1 other_buffer_size
       crop_shape serializable t
  /\ get_federated_datasets train_batch_size test_batch_size
       train_epochs test_epochs other_buffer_size shuffle_buffer_size
       crop_shape serializable t =
     get_federated_datasets train_batch_size test_batch_size
       train_epochs test_epochs other_buffer_size 1
       crop_shape serializable t
  /\ get_centralized_datasets train_batch_size test_batch_size
       shuffle_buffer_size other_buffer_size crop_shape t =
     get_centralized_datasets train_batch_size test_batch_size
       1 other_buffer_size crop_shape t
  /\ get_centralized_datasets train_batch_size test_batch_size
       other_buffer_size shuffle_buffer_size crop_shape t =
     get_centralized_datasets train_batch_size test_batch_size
       other_buffer_size 1 crop_shape t
  /\ (tuple crop_shape = Ok items ->
      documented_crop_shape items ->
      serializable = PyBool b ->
      documented_batch_size train_batch_size ->
      documented_batch_size test_batch_size ->
      documented_count train_epochs ->
      documented_count test_epochs ->
      other_buffer_size <= 2 ^ 63 - 1 ->
      (exists cifar_train cifar_test,
         get_federated_datasets train_batch_size test_batch_size
           train_epochs test_epochs shuffle_buffer_size other_buffer_size
           crop_shape serializable t =
         (t ++ [LoadData], Ok (cifar_train, cifar_test))
         /\ forall client_id,
              create_tf_dataset_for_client cifar_train client_id =
              Map (Batch (Repeat (Shuffle (ClientDataset Train client_id) 1)
                            train_epochs) train_batch_size)
                  (build_image_map (PyInt train_batch_size :: items) (negb b))
                  tf.AUTOTUNE)
      /\ (exists cifar_train cifar_test,
            get_federated_datasets train_batch_size test_batch_size
              train_epochs test_epochs other_buffer_size shuffle_buffer_size
              crop_shape serializable t =
            (t ++ [LoadData], Ok (cifar_train, cifar_test))
            /\ forall client_id,
                 create_tf_dataset_for_client cifar_test client_id =
                 Map (Batch (Repeat (Shuffle (ClientDataset Test client_id) 1)
                               test_epochs) test_batch_size)
                     (build_image_map (PyInt test_batch_size :: items) false)
                     tf.AUTOTUNE))
  /\ (tuple crop_shape = Ok items ->
      documented_crop_shape items ->
      documented_batch_size train_batch_size ->
      documented_batch_size test_batch_size ->
      other_buffer_size <= 2 ^ 63 - 1 ->
      (exists cifar_train cifar_test,
         get_centralized_datasets train_batch_size test_batch_size
           shuffle_buffer_size other_buffer_size crop_shape t =
         (t ++ [LoadData], Ok (cifar_train, cifar_test))
         /\ cifar_train =
            Map (Batch (Repeat (Shuffle (AllClientsDataset Train) 1) 1)
                   train_batch_size)
                (build_image_map (PyInt train_batch_size :: items) true)
                tf.AUTOTUNE)
      /\ (exists cifar_train cifar_test,
            get_centralized_datasets train_batch_size test_batch_size
              other_buffer_size shuffle_buffer_size crop_shape t =
            (t ++ [LoadData], Ok (cifar_train, cifar_test))
            /\ cifar_test =
               Map (Batch (Repeat (Shuffle (AllClientsDataset Test) 1) 1)
                      test_batch_size)
                   (build_image_map (PyInt test_batch_size :: items) false)
                   tf.AUTOTUNE)).
Proof.
  intros H. assert (Hmax : Z.max 1 shuffle_buffer_size = 1) by lia.
  apply Z.leb_le in H.
  split; [unfold create_preprocess_fn; rewrite H; reflexivity |].
  split.
  { intros He.
    destruct (create_preprocess_fn_returns num_epochs batch_size
                shuffle_buffer_size shape distort_image num_parallel_calls He)
      as [fn [E Hcall]].
    exists fn. split; [exact E |].
    intros dataset. rewrite Hcall, Hmax. reflexivity. }
  split; [unfold get_federated_datasets; rewrite H; reflexivity |].
  split; [unfold get_federated_datasets; rewrite H; reflexivity |].
  split; [unfold get_centralized_datasets; rewrite H; reflexivity |].
  split; [unfold get_centralized_datasets; rewrite H; reflexivity |].
  split.
  { intros Ht [h [w [-> _]]] -> _ _ [H1 _] [H2 _] _.
    assert (Hl : List.length [PyInt h; PyInt w; PyInt 3] = 3%nat)
      by reflexivity.
    split.
    - destruct (federated_returns train_batch_size test_batch_size
                  train_epochs test_epochs
                  shuffle_buffer_size other_buffer_size
                  _ _ t _ b Ht Hl eq_refl H1 H2)
        as [ftrain [ftest [E [Ctrain _]]]].
      exists (preprocess (Cifar100 Train) ftrain),
             (preprocess (Cifar100 Test) ftest).
      split; [exact E |].
      intros client_id. unfold create_tf_dataset_for_client. simpl.
      rewrite Ctrain, Hmax. reflexivity.
    - destruct (federated_returns train_batch_size test_batch_size
                  train_epochs test_epochs
                  other_buffer_size shuffle_buffer_size
                  _ _ t _ b Ht Hl eq_refl H1 H2)
        as [ftrain [ftest [E [_ Ctest]]]].
      exists (preprocess (Cifar100 Train) ftrain),
             (preprocess (Cifar100 Test) ftest).
      split; [exact E |].
      intros client_id. unfold create_tf_dataset_for_client. simpl.
      rewrite Ctest, Hmax. reflexivity. }
  intros Ht [h [w [-> _]]] _ _ _.
  assert (Hl : List.length [PyInt h; PyInt w; PyInt 3] = 3%nat)
    by reflexivity.
  split.
  - destruct (centralized_returns train_batch_size test_batch_size
                shuffle_buffer_size other_buffer_size
                crop_shape t _ Ht Hl)
      as [ftrain [ftest [_ [_ [E [Ctrain _]]]]]].
    exists (call ftrain (AllClientsDataset Train)),
           (call ftest (AllClientsDataset Test)).
    split; [exact E |]. rewrite Ctrain, Hmax. reflexivity.
  - destruct (centralized_returns train_batch_size test_batch_size
                other_buffer_size shuffle_buffer_size
                crop_shape t _ Ht Hl)
      as [ftrain [ftest [_ [_ [E [_ Ctest]]]]]].
    exists (call ftrain (AllClientsDataset Train)),
           (call ftest (AllClientsDataset Test)).
    split; [exact E |]. rewrite Ctest, Hmax. reflexivity.
Qed.

Lemma shuffle_buffer_size_normalized_witness :
  create_preprocess_fn 1 20 0 CIFAR_SHAPE false tf.AUTOTUNE =
  create_preprocess_fn 1 20 1 CIFAR_SHAPE false tf.AUTOTUNE
  /\ (1 <= 1 ->
      exists fn,
        create_preprocess_fn 1 20 0 CIFAR_SHAPE false tf.AUTOTUNE = Ok fn
        /\ forall dataset,
            call fn dataset =
            Map (Batch (Repeat (Shuffle dataset 1) 1) 20)
                (build_image_map CIFAR_SHAPE false) tf.AUTOTUNE)
  /\ get_federated_datasets 20 100 1 1 0 500 (PyTuple CIFAR_SHAPE)
       (PyBool false) [] =
     get_federated_datasets 20 100 1 1 1 500 (PyTuple CIFAR_SHAPE)
       (PyBool false) []
  /\ get_federated_datasets 20 100 1 1 500 0 (PyTuple CIFAR_SHAPE)
       (PyBool false) [] =
     get_federated_datasets 20 100 1 1 500 1 (PyTuple CIFAR_SHAPE)
       (PyBool false) []
  /\ get_centralized_datasets 20 100 0 500 (PyTuple CIFAR_SHAPE) [] =
     get_centralized_datasets 20 100 1 500 (PyTuple CIFAR_SHAPE) []
  /\ get_centralized_datasets 20 100 500 0 (PyTuple CIFAR_SHAPE) [] =
     get_centralized_datasets 20 100 500 1 (PyTuple CIFAR_SHAPE) []
  /\ (tuple (PyTuple CIFAR_SHAPE) = Ok CIFAR_SHAPE ->
      documented_crop_shape CIFAR_SHAPE ->
      PyBool false = PyBool false ->
      documented_batch_size 20 ->
      documented_batch_size 100 ->
      documented_count 1 ->
      documented_count 1 ->
      500 <= 2 ^ 63 - 1 ->
      (exists cifar_train cifar_test,
         get_federated_datasets 20 100 1 1 0 500 (PyTuple CIFAR_SHAPE)
           (PyBool false) [] =
         ([] ++ [LoadData], Ok (cifar_train, cifar_test))
         /\ forall client_id,
              create_tf_dataset_for_client cifar_train client_id =
              Map (Batch (Repeat (Shuffle (ClientDataset Train client_id) 1)
                            1) 20)
                  (build_image_map (PyInt 20 :: CIFAR_SHAPE) (negb false))
                  tf.AUTOTUNE)
      /\ (exists cifar_train cifar_test,
            get_federated_datasets 20 100 1 1 500 0 (PyTuple CIFAR_SHAPE)
              (PyBool false) [] =
            ([] ++ [LoadData], Ok (cifar_train, cifar_test))
            /\ forall client_id,
                 create_tf_dataset_for_client cifar_test client_id =
                 Map (Batch (Repeat (Shuffle (ClientDataset Test client_id) 1)
                               1) 100)
                     (build_image_map (PyInt 100 :: CIFAR_SHAPE) false)
                     tf.AUTOTUNE))
  /\ (tuple (PyTuple CIFAR_SHAPE) = Ok CIFAR_SHAPE ->
      documented_crop_shape CIFAR_SHAPE ->
      documented_batch_size 20 ->
      documented_batch_size 100 ->
      500 <= 2 ^ 63 - 1 ->
      (exists cifar_train cifar_test,
         get_centralized_datasets 20 100 0 500 (PyTuple CIFAR_SHAPE) [] =
         ([] ++ [LoadData], Ok (cifar_train, cifar_test))
         /\ cifar_train =
            Map (Batch (Repeat (Shuffle (AllClientsDataset Train) 1) 1) 20)
                (build_image_map (PyInt 20 :: CIFAR_SHAPE) true)
                tf.AUTOTUNE)
      /\ (exists cifar_train cifar_test,
            get_centralized_datasets 20 100 500 0 (PyTuple CIFAR_SHAPE) [] =
            ([] ++ [LoadData], Ok (cifar_train, cifar_test))
            /\ cifar_test =
               Map (Batch (Repeat (Shuffle (AllClientsDataset Test) 1) 1) 100)
                   (build_image_map (PyInt 100 :: CIFAR_SHAPE) false)
                   tf.AUTOTUNE)).
Proof.
  apply (shuffle_buffer_size_normalized 0 500 1 20 CIFAR_SHAPE false
           tf.AUTOTUNE 20 100 1 1 (PyTuple CIFAR_SHAPE) (PyBool false)
           CIFAR_SHAPE false []).
  lia.
Defined.

(** ** Determinism without distortion *)

(** C9: for a crop shape [(h, w, 3)] with [h, w <= 32], one application of
    the function built with [distort=False] to a record gives the same
    (image, label) outcome whatever the state of the random generator, and
    leaves that state unchanged; so two applications to the same record
    give identical outcomes.  This holds over every runtime. *)
Theorem build_image_map_deterministic
    (R : Runtime) (h w : Z) (x : record (value R)) (g1 g2 : rng R) :
  h <= 32 ->
  w <= 32 ->
  fst (apply_map (build_image_map [PyInt h; PyInt w; PyInt 3] false) x g1) =
  fst (apply_map (build_image_map [PyInt h; PyInt w; PyInt 3] false) x g2)
  /\ snd (apply_map (build_image_map [PyInt h; PyInt w; PyInt 3] false) x g1)
     = g1.
Proof.
  intros _ _.
  destruct (apply_map_stateless R x
              (build_image_map [PyInt h; PyInt w; PyInt 3] false) eq_refl)
    as [r Hr].
  rewrite !Hr. split; reflexivity.
Qed.

Lemma build_image_map_deterministic_witness :
  fst (@apply_map IntRuntime.runtime
         (build_image_map [PyInt 24; PyInt 24; PyInt 3] false)
         IntRuntime.sample 1) =
  fst (@apply_map IntRuntime.runtime
         (build_image_map [PyInt 24; PyInt 24; PyInt 3] false)
         IntRuntime.sample 5)
  /\ snd (@apply_map IntRuntime.runtime
            (build_image_map [PyInt 24; PyInt 24; PyInt 3] false)
            IntRuntime.sample 1) = 1.
Proof.
  apply (build_image_map_deterministic IntRuntime.runtime 24 24
           IntRuntime.sample 1 5); lia.
Defined.

(** With distortion the outcome does depend on the generator. *)
Example distorted_outcomes_differ :
  fst (@apply_map IntRuntime.runtime
         (build_image_map [PyInt 2; PyInt 2; PyInt 1] true)
         IntRuntime.sample 1) <>
  fst (@apply_map IntRuntime.runtime
         (build_image_map [PyInt 2; PyInt 2; PyInt 1] true)
         IntRuntime.sample 2).
Proof. vm_compute. discriminate. Qed.

(** A crop shape (2, 6, 1) given to [build_image_map] itself yields an
    image of height 6 and width 1. *)
Example resize_of_3_tuple :
  @apply_map IntRuntime.runtime
    (build_image_map [PyInt 2; PyInt 6; PyInt 1] false) IntRuntime.sample 5 =
  (Ok (IntRuntime.Image
         [[[-755]]; [[1825]]; [[-575]]; [[896]]; [[-639]]; [[-755]]],
       IntRuntime.Scalar 42), 5).
Proof. vm_compute. reflexivity. Qed.

(** The same shape behind a batch size yields height 2 and width 6. *)
Example resize_of_4_tuple :
  @apply_map IntRuntime.runtime
    (build_image_map [PyInt 20; PyInt 2; PyInt 6; PyInt 1] false)
    IntRuntime.sample 5 =
  (Ok (IntRuntime.Image
         [[[-823]; [194]; [-664]; [2059]; [-77]; [-823]];
          [[-823]; [-789]; [624]; [48]; [1889]; [-823]]],
       IntRuntime.Scalar 42), 5).
Proof. vm_compute. reflexivity. Qed.

(** ** The crop shape behind the batch size *)

(** C10: [get_federated_datasets] and [get_centralized_datasets] build
    their map functions from the 4-tuple made of the batch size followed by
    the caller's crop shape [(h, w, c)].  For such a 4-tuple the function
    built with [distort=False] resizes to [crop_shape[1] = h] and
    [crop_shape[2] = w], the caller's height and width; built from the
    3-tuple [(h, w, c)] itself it resizes to [w] and [c]. *)
Theorem crop_shape_behind_batch_size
    (train_batch_size test_batch_size train_epochs test_epochs : Z)
    (train_shuffle_buffer_size test_shuffle_buffer_size : Z)
    (crop_shape : obj) (h w c : obj) (serializable : bool) (t : trace)
    (x : example) :
  tuple crop_shape = Ok [h; w; c] ->
  1 <= train_epochs ->
  1 <= test_epochs ->
  (exists cifar_train cifar_test,
     get_federated_datasets train_batch_size test_batch_size
       train_epochs test_epochs
       train_shuffle_buffer_size test_shuffle_buffer_size
       crop_shape (PyBool serializable) t =
     (t ++ [LoadData], Ok (cifar_train, cifar_test))
     /\ (forall client_id,
           map_func_of (create_tf_dataset_for_client cifar_train client_id) =
           Some (build_image_map [PyInt train_batch_size; h; w; c]
                   (negb serializable)))
     /\ (forall client_id,
           map_func_of (create_tf_dataset_for_client cifar_test client_id) =
           Some (build_image_map [PyInt test_batch_size; h; w; c] false)))
  /\ (exists cifar_train cifar_test,
        get_centralized_datasets train_batch_size test_batch_size
          train_shuffle_buffer_size test_shuffle_buffer_size crop_shape t =
        (t ++ [LoadData], Ok (cifar_train, cifar_test))
        /\ map_func_of cifar_train =
           Some (build_image_map [PyInt train_batch_size; h; w; c] true)
        /\ map_func_of cifar_test =
           Some (build_image_map [PyInt test_batch_size; h; w; c] false))
  /\ build_image_map [PyInt test_batch_size; h; w; c] false x =
     Ok (PerImageStandardization
           (ResizeWithCropOrPad (Cast (image x) float32) h w),
         label x)
  /\ build_image_map [h; w; c] false x =
     Ok (PerImageStandardization
           (ResizeWithCropOrPad (Cast (image x) float32) w c),
         label x).
Proof.
  intros Ht H1 H2.
  split.
  { destruct (federated_returns train_batch_size test_batch_size
                train_epochs test_epochs
                train_shuffle_buffer_size test_shuffle_buffer_size
                _ _ t [h; w; c] serializable Ht eq_refl eq_refl H1 H2)
      as [ftrain [ftest [E [Ctrain Ctest]]]].
    exists (preprocess (Cifar100 Train) ftrain),
           (preprocess (Cifar100 Test) ftest).
    split; [exact E |].
    split; intros client_id; unfold create_tf_dataset_for_client; simpl.
    - rewrite Ctrain. reflexivity.
    - rewrite Ctest. reflexivity. }
  split.
  { destruct (centralized_returns train_batch_size test_batch_size
                train_shuffle_buffer_size test_shuffle_buffer_size
                crop_shape t [h; w; c] Ht eq_refl)
      as [ftrain [ftest [_ [_ [E [Ctrain Ctest]]]]]].
    exists (call ftrain (AllClientsDataset Train)),
           (call ftest (AllClientsDataset Test)).
    split; [exact E |].
    rewrite Ctrain, Ctest. split; reflexivity. }
  split; reflexivity.
Qed.

Lemma crop_shape_behind_batch_size_witness :
  (exists cifar_train cifar_test,
     get_federated_datasets 20 100 1 1 NUM_EXAMPLES_PER_CLIENT 1
       (PyTuple [PyInt 24; PyInt 28; PyInt 3]) (PyBool false) [] =
     ([] ++ [LoadData], Ok (cifar_train, cifar_test))
     /\ (forall client_id,
           map_func_of (create_tf_dataset_for_client cifar_train client_id) =
           Some (build_image_map [PyInt 20; PyInt 24; PyInt 28; PyInt 3]
                   (negb false)))
     /\ (forall client_id,
           map_func_of (create_tf_dataset_for_client cifar_test client_id) =
           Some (build_image_map [PyInt 100; PyInt 24; PyInt 28; PyInt 3]
                   false)))
  /\ (exists cifar_train cifar_test,
        get_centralized_datasets 20 100 NUM_EXAMPLES_PER_CLIENT 1
          (PyTuple [PyInt 24; PyInt 28; PyInt 3]) [] =
        ([] ++ [LoadData], Ok (cifar_train, cifar_test))
        /\ map_func_of cifar_train =
           Some (build_image_map [PyInt 20; PyInt 24; PyInt 28; PyInt 3] true)
        /\ map_func_of cifar_test =
           Some (build_image_map [PyInt 100; PyInt 24; PyInt 28; PyInt 3]
                   false))
  /\ build_image_map [PyInt 100; PyInt 24; PyInt 28; PyInt 3] false element =
     Ok (PerImageStandardization
           (ResizeWithCropOrPad (Cast (image element) float32)
              (PyInt 24) (PyInt 28)),
         label element)
  /\ build_image_map [PyInt 24; PyInt 28; PyInt 3] false element =
     Ok (PerImageStandardization
           (ResizeWithCropOrPad (Cast (image element) float32)
              (PyInt 28) (PyInt 3)),
         label element).
Proof.
  apply (crop_shape_behind_batch_size 20 100 1 1 NUM_EXAMPLES_PER_CLIENT 1
           (PyTuple [PyInt 24; PyInt 28; PyInt 3])
           (PyInt 24) (PyInt 28) (PyInt 3) false [] element).
  - reflexivity.
  - lia.
  - lia.
Defined.

(** * Further properties of the module *)

(** ** The function built by [build_image_map] *)

(** X1: the function built with [distort=False] raises an [IndexError]
    exactly when the crop shape has fewer than 3 entries: it reads
    [crop_shape[1]] and [crop_shape[2]] before it calls
    [resize_with_crop_or_pad].  The function built with [distort=True]
    never indexes the shape, so it raises no [IndexError] whatever the
    length of the shape. *)
Theorem build_image_map_index_error (crop_shape : list obj) (x : example) :
  (raises_IndexError (build_image_map crop_shape false x)
   <-> (List.length crop_shape < 3)%nat)
  /\ ~ raises_IndexError (build_image_map crop_shape true x).
Proof.
  split.
  - destruct crop_shape as [| a [| h [| w rest]]]; simpl; split; intros H;
      try lia; try (eexists; reflexivity).
    destruct H as [msg E]. discriminate E.
  - intros [msg E]. discriminate E.
Qed.

(** X2: without distortion only the entries 1 and 2 of the crop shape are
    read: two shapes that agree there, whatever their entry 0, their
    further entries and their lengths, build functions with the same
    outcome on every example. *)
Theorem build_image_map_reads_entries_1_2
    (shape1 shape2 : list obj) (x : example) :
  nth_error shape1 1 = nth_error shape2 1 ->
  nth_error shape1 2 = nth_error shape2 2 ->
  build_image_map shape1 false x = build_image_map shape2 false x.
Proof.
  intros H1 H2. unfold build_image_map, crop_fn_resize, getitem.
  rewrite H1, H2. reflexivity.
Qed.

Lemma build_image_map_reads_entries_1_2_witness :
  build_image_map [PyInt 20; PyInt 24; PyInt 28; PyInt 3] false element =
  build_image_map [PyNone; PyInt 24; PyInt 28] false element.
Proof.
  apply (build_image_map_reads_entries_1_2
           [PyInt 20; PyInt 24; PyInt 28; PyInt 3]
           [PyNone; PyInt 24; PyInt 28] element).
  - reflexivity.
  - reflexivity.
Defined.

Lemma eval_label (R : Runtime) (x : record (value R)) (g : rng R) :
  eval x (Component "label") g = (Ok (label_of x), g).
Proof. reflexivity. Qed.

Lemma eval_image (R : Runtime) (x : record (value R)) (g : rng R) :
  eval x (Component "image") g = (Ok (image_of x), g).
Proof. reflexivity. Qed.

Lemma build_image_map_outputs (crop_shape : list obj) (distort : bool)
    (im lb : tensor) :
  build_image_map crop_shape distort element = Ok (im, lb) ->
  over_image im /\ lb = Component "label".
Proof.
  destruct distort.
  - intros E. injection E as <- <-. split; [| reflexivity].
    repeat constructor.
  - unfold build_image_map, crop_fn_resize, getitem.
    destruct (nth_error crop_shape 1); [| discriminate].
    destruct (nth_error crop_shape 2); [| discriminate].
    intros E. injection E as <- <-. split; [| reflexivity].
    repeat constructor.
Qed.

Lemma eval_over_image (R : Runtime) (x1 x2 : record (value R)) (tn : tensor) :
  image_of x1 = image_of x2 ->
  over_image tn ->
  forall g, eval x1 tn g = eval x2 tn g.
Proof.
  intros Hi Ho. induction Ho; intros g.
  - rewrite !eval_image, Hi. reflexivity.
  - simpl. unfold run_bind. rewrite IHHo. reflexivity.
  - simpl. unfold run_bind. rewrite IHHo. reflexivity.
  - simpl. unfold run_bind. rewrite IHHo. reflexivity.
  - simpl. unfold run_bind. rewrite IHHo. reflexivity.
  - simpl. unfold run_bind. rewrite IHHo. reflexivity.
Qed.

(** X3: over every runtime, the function built by [build_image_map] (with
    or without distortion) ignores the coarse label: two records with the
    same image and label give the same outcome from the same generator
    state; and whenever an application returns, the label it returns is the
    record's label, unchanged. *)
Theorem image_map_label_passes_coarse_label_ignored
    (R : Runtime) (crop_shape : list obj) (distort : bool)
    (x1 x2 : record (value R)) (g : rng R) :
  image_of x1 = image_of x2 ->
  label_of x1 = label_of x2 ->
  apply_map (build_image_map crop_shape distort) x1 g =
  apply_map (build_image_map crop_shape distort) x2 g
  /\ forall vi vl g',
       apply_map (build_image_map crop_shape distort) x1 g = (Ok (vi, vl), g') ->
       vl = label_of x1.
Proof.
  intros Hi Hl. unfold apply_map.
  destruct (build_image_map crop_shape distort element) as [[im lb] | e] eqn:E.
  - destruct (build_image_map_outputs _ _ _ _ E) as [Ho ->].
    split.
    + unfold run_bind. rewrite (eval_over_image R x1 x2 im Hi Ho g).
      destruct (eval x2 im g) as [[vi | e] g1]; [| reflexivity].
      rewrite !eval_label, Hl. reflexivity.
    + intros vi vl g'. unfold run_bind.
      destruct (eval x1 im g) as [[vi' | e] g1]; [| discriminate].
      rewrite eval_label. unfold pure. intros H. injection H as _ <- _.
      reflexivity.
  - split; [reflexivity |]. intros vi vl g' H. discriminate H.
Qed.

Lemma image_map_label_passes_coarse_label_ignored_witness :
  @apply_map IntRuntime.runtime
    (build_image_map [PyInt 2; PyInt 2; PyInt 1] true) IntRuntime.sample 1 =
  @apply_map IntRuntime.runtime
    (build_image_map [PyInt 2; PyInt 2; PyInt 1] true)
    {| coarse_label_of := IntRuntime.Scalar 0;
       image_of := IntRuntime.Image IntRuntime.sample_image;
       label_of := IntRuntime.Scalar 42 |} 1
  /\ forall vi vl g',
       @apply_map IntRuntime.runtime
         (build_image_map [PyInt 2; PyInt 2; PyInt 1] true)
         IntRuntime.sample 1 = (Ok (vi, vl), g') ->
       vl = label_of IntRuntime.sample.
Proof.
  apply (image_map_label_passes_coarse_label_ignored IntRuntime.runtime
           [PyInt 2; PyInt 2; PyInt 1] true IntRuntime.sample
           {| coarse_label_of := IntRuntime.Scalar 0;
              image_of := IntRuntime.Image IntRuntime.sample_image;
              label_of := IntRuntime.Scalar 42 |} 1).
  - reflexivity.
  - reflexivity.
Defined.

(** ** Every outcome of the two assemblers *)

Lemma tuple_Raise_not_Iterable (x : obj) (e : exn) :
  tuple x = Raise e -> isinstance_Iterable x = false.
Proof.
  destruct x; simpl; intros H; try reflexivity; discriminate H.
Qed.

(** The outcomes of [get_federated_datasets], check by check. *)
Lemma federated_outcome_cases
    (train_client_batch_size test_client_batch_size : Z)
    (train_client_epochs_per_round test_client_epochs_per_round : Z)
    (train_shuffle_buffer_size test_shuffle_buffer_size : Z)
    (crop_shape serializable : obj) (t : trace) :
  let outcome :=
    get_federated_datasets train_client_batch_size test_client_batch_size
      train_client_epochs_per_round test_client_epochs_per_round
      train_shuffle_buffer_size test_shuffle_buffer_size
      crop_shape serializable t in
  (isinstance_Iterable crop_shape = false
   /\ exists msg, outcome = (t, Raise (TypeError msg)))
  \/ (exists items,
        tuple crop_shape = Ok items /\ List.length items <> 3%nat
        /\ exists msg, outcome = (t, Raise (ValueError msg)))
  \/ (exists items,
        tuple crop_shape = Ok items /\ List.length items = 3%nat
        /\ isinstance_bool serializable = false
        /\ exists msg, outcome = (t, Raise (TypeError msg)))
  \/ (exists items,
        tuple crop_shape = Ok items /\ List.length items = 3%nat
        /\ isinstance_bool serializable = true
        /\ (train_client_epochs_per_round < 1
            \/ test_client_epochs_per_round < 0)
        /\ exists msg, outcome = (t, Raise (ValueError msg)))
  \/ (exists items,
        tuple crop_shape = Ok items /\ List.length items = 3%nat
        /\ isinstance_bool serializable = true
        /\ 1 <= train_client_epochs_per_round
        /\ test_client_epochs_per_round = 0
        /\ exists msg, outcome = (t ++ [LoadData], Raise (ValueError msg)))
  \/ (exists items,
        tuple crop_shape = Ok items /\ List.length items = 3%nat
        /\ isinstance_bool serializable = true
        /\ 1 <= train_client_epochs_per_round
        /\ 1 <= test_client_epochs_per_round
        /\ exists datasets, outcome = (t ++ [LoadData], Ok datasets)).
Proof.
  intros outcome. subst outcome.
  destruct (isinstance_Iterable crop_shape) eqn:Hi.
  2: { left. split; [reflexivity |]. eexists.
       apply federated_not_iterable. exact Hi. }
  right. destruct (Iterable_tuple_Ok _ Hi) as [items Ht].
  destruct (Nat.eq_dec (List.length items) 3) as [Hl | Hl].
  2: { left. exists items. repeat split; try assumption. eexists.
       apply (federated_bad_length _ _ _ _ _ _ _ _ _ items Ht Hl). }
  right. destruct (isinstance_bool serializable) eqn:Hb.
  2: { left. exists items. repeat split; try assumption. eexists.
       apply (federated_not_bool _ _ _ _ _ _ _ _ _ items Ht Hl Hb). }
  right. destruct (isinstance_bool_PyBool _ Hb) as [b ->].
  destruct (Z.lt_ge_cases train_client_epochs_per_round 1) as [H1 | H1].
  { left. exists items. repeat split; try assumption.
    - left. exact H1.
    - eexists.
      apply (federated_train_epochs _ _ _ _ _ _ _ _ _ items b Ht Hl eq_refl H1). }
  destruct (Z.lt_ge_cases test_client_epochs_per_round 0) as [H2 | H2].
  { left. exists items. repeat split; try assumption.
    - right. exact H2.
    - eexists.
      apply (federated_test_epochs_negative _ _ _ _ _ _ _ _ _ items b Ht Hl
               eq_refl H1 H2). }
  right. destruct (Z.eq_dec test_client_epochs_per_round 0) as [H0 | H0].
  { left. exists items. repeat split; try assumption. eexists.
    apply (federated_test_epochs_zero _ _ _ _ _ _ _ _ _ items b Ht Hl
             eq_refl H1 H0). }
  right. assert (H3 : 1 <= test_client_epochs_per_round) by lia.
  exists items. repeat split; try assumption.
  destruct (federated_returns train_client_batch_size test_client_batch_size
              _ _ train_shuffle_buffer_size test_shuffle_buffer_size
              _ _ t items b Ht Hl eq_refl H1 H3) as [f1 [f2 [E _]]].
  eexists. exact E.
Qed.

(** The outcomes of [get_centralized_datasets], check by check. *)
Lemma centralized_outcome_cases
    (train_batch_size test_batch_size : Z)
    (train_shuffle_buffer_size test_shuffle_buffer_size : Z)
    (crop_shape : obj) (t : trace) :
  let outcome :=
    get_centralized_datasets train_batch_size test_batch_size
      train_shuffle_buffer_size test_shuffle_buffer_size crop_shape t in
  (isinstance_Iterable crop_shape = false
   /\ exists msg, outcome = (t, Raise (ValueError msg)))
  \/ (exists items,
        tuple crop_shape = Ok items /\ List.length items <> 3%nat
        /\ exists msg, outcome = (t, Raise (ValueError msg)))
  \/ (exists items,
        tuple crop_shape = Ok items /\ List.length items = 3%nat
        /\ exists datasets, outcome = (t ++ [LoadData], Ok datasets)).
Proof.
  intros outcome. subst outcome.
  destruct (isinstance_Iterable crop_shape) eqn:Hi.
  2: { left. split; [reflexivity |]. eexists.
       apply centralized_not_coercible. exact Hi. }
  right. destruct (Iterable_tuple_Ok _ Hi) as [items Ht].
  destruct (Nat.eq_dec (List.length items) 3) as [Hl | Hl].
  - right. exists items. repeat split; try assumption.
    destruct (centralized_returns train_batch_size test_batch_size
                train_shuffle_buffer_size test_shuffle_buffer_size
                crop_shape t items Ht Hl) as [f1 [f2 [_ [_ [E _]]]]].
    eexists. exact E.
  - left. exists items. repeat split; try assumption. eexists.
    apply (centralized_bad_length _ _ _ _ _ _ items Ht Hl).
Qed.

(** ** Argument errors of the two assemblers *)

(** X4: a crop shape that is not iterable is rejected by both assemblers
    before any load and whatever the other arguments, but not with the same
    exception: [get_federated_datasets] raises a [TypeError],
    [get_centralized_datasets] a [ValueError]. *)
Theorem crop_shape_not_iterable_errors
    (train_batch_size test_batch_size train_epochs test_epochs : Z)
    (train_shuffle_buffer_size test_shuffle_buffer_size : Z)
    (crop_shape serializable : obj) (t : trace) :
  isinstance_Iterable crop_shape = false ->
  get_federated_datasets train_batch_size test_batch_size
    train_epochs test_epochs
    train_shuffle_buffer_size test_shuffle_buffer_size
    crop_shape serializable t =
  (t, Raise (TypeError (Literal "Argument crop_shape must be an iterable.")))
  /\ get_centralized_datasets train_batch_size test_batch_size
       train_shuffle_buffer_size test_shuffle_buffer_size crop_shape t =
     (t, Raise (ValueError (Literal
       "Argument crop_shape must be able to coerced into a length 3 tuple."))).
Proof.
  intros H. split.
  - apply federated_not_iterable. exact H.
  - apply centralized_not_coercible. exact H.
Qed.

Lemma crop_shape_not_iterable_errors_witness :
  get_federated_datasets 20 100 0 (-1) 0 0 (PyInt 32) PyNone [LoadData] =
  ([LoadData],
   Raise (TypeError (Literal "Argument crop_shape must be an iterable.")))
  /\ get_centralized_datasets 20 100 0 0 (PyInt 32) [LoadData] =
     ([LoadData],
      Raise (ValueError (Literal
        "Argument crop_shape must be able to coerced into a length 3 tuple."))).
Proof.
  apply (crop_shape_not_iterable_errors 20 100 0 (-1) 0 0 (PyInt 32) PyNone
           [LoadData]).
  reflexivity.
Defined.

(** X5: an iterable crop shape whose length is not 3 (shorter or longer)
    makes both assemblers raise the same [ValueError] before any load,
    whatever the other arguments, valid or not. *)
Theorem crop_shape_wrong_length_errors
    (train_batch_size test_batch_size train_epochs test_epochs : Z)
    (train_shuffle_buffer_size test_shuffle_buffer_size : Z)
    (crop_shape serializable : obj) (items : list obj) (t : trace) :
  tuple crop_shape = Ok items ->
  List.length items <> 3%nat ->
  get_federated_datasets train_batch_size test_batch_size
    train_epochs test_epochs
    train_shuffle_buffer_size test_shuffle_buffer_size
    crop_shape serializable t =
  (t, Raise (ValueError (Literal
    "The crop_shape must have length 3, corresponding to a tensor of shape [height, width, channels].")))
  /\ get_centralized_datasets train_batch_size test_batch_size
       train_shuffle_buffer_size test_shuffle_buffer_size crop_shape t =
     (t, Raise (ValueError (Literal
       "The crop_shape must have length 3, corresponding to a tensor of shape [height, width, channels]."))).
Proof.
  intros Ht Hl. split.
  - apply (federated_bad_length _ _ _ _ _ _ _ _ _ items Ht Hl).
  - apply (centralized_bad_length _ _ _ _ _ _ items Ht Hl).
Qed.

Lemma crop_shape_wrong_length_errors_witness :
  get_federated_datasets 20 100 0 0 500 1
    (PyList [PyInt 20; PyInt 32; PyInt 32; PyInt 3]) (PyInt 1) [] =
  ([], Raise (ValueError (Literal
    "The crop_shape must have length 3, corresponding to a tensor of shape [height, width, channels].")))
  /\ get_centralized_datasets 20 100 500 1
       (PyList [PyInt 20; PyInt 32; PyInt 32; PyInt 3]) [] =
     ([], Raise (ValueError (Literal
       "The crop_shape must have length 3, corresponding to a tensor of shape [height, width, channels]."))).
Proof.
  apply (crop_shape_wrong_length_errors 20 100 0 0 500 1
           (PyList [PyInt 20; PyInt 32; PyInt 32; PyInt 3]) (PyInt 1)
           [PyInt 20; PyInt 32; PyInt 32; PyInt 3] []).
  - reflexivity.
  - simpl. lia.
Defined.

(** X6: with a crop shape of 3 items, a [serializable] argument that is not
    a [bool] (an [int] such as 0 or 1, [None], a string, ...) makes
    [get_federated_datasets] raise a [TypeError] that carries the value and
    its type, before any load and before the epoch counts are looked at. *)
Theorem serializable_not_bool_error
    (train_batch_size test_batch_size train_epochs test_epochs : Z)
    (train_shuffle_buffer_size test_shuffle_buffer_size : Z)
    (crop_shape serializable : obj) (items : list obj) (t : trace) :
  tuple crop_shape = Ok items ->
  List.length items = 3%nat ->
  isinstance_bool serializable = false ->
  get_federated_datasets train_batch_size test_batch_size
    train_epochs test_epochs
    train_shuffle_buffer_size test_shuffle_buffer_size
    crop_shape serializable t =
  (t, Raise (TypeError (Format
    "serializable must be a Boolean; you passed {} of type {}."
    [serializable; type serializable]))).
Proof.
  intros Ht Hl Hb.
  apply (federated_not_bool _ _ _ _ _ _ _ _ _ items Ht Hl Hb).
Qed.

Lemma serializable_not_bool_error_witness :
  get_federated_datasets 20 100 0 (-3) 500 1 (PyTuple CIFAR_SHAPE) (PyInt 1) [] =
  ([], Raise (TypeError (Format
    "serializable must be a Boolean; you passed {} of type {}."
    [PyInt 1; type (PyInt 1)]))).
Proof.
  apply (serializable_not_bool_error 20 100 0 (-3) 500 1
           (PyTuple CIFAR_SHAPE) (PyInt 1) CIFAR_SHAPE []).
  - reflexivity.
  - reflexivity.
  - reflexivity.
Defined.

Lemma trace_grows (t : trace) : t ++ [LoadData] <> t.
Proof.
  intros H. apply (f_equal (@List.length event)) in H.
  rewrite length_app in H. simpl in H. lia.
Qed.

(** X7: an exception that [get_centralized_datasets] raises without having
    called [load_data], that is from its own argument checks, is always a
    [ValueError]; one that [get_federated_datasets] raises without having
    called [load_data] is always a [TypeError] or a [ValueError]. *)
Theorem assemblers_exception_types_before_load
    (train_batch_size test_batch_size train_epochs test_epochs : Z)
    (train_shuffle_buffer_size test_shuffle_buffer_size : Z)
    (crop_shape serializable : obj) (t : trace) :
  (forall e,
     get_centralized_datasets train_batch_size test_batch_size
       train_shuffle_buffer_size test_shuffle_buffer_size crop_shape t =
     (t, Raise e) ->
     exists msg, e = ValueError msg)
  /\ (forall e,
        get_federated_datasets train_batch_size test_batch_size
          train_epochs test_epochs
          train_shuffle_buffer_size test_shuffle_buffer_size
          crop_shape serializable t =
        (t, Raise e) ->
        exists msg, e = TypeError msg \/ e = ValueError msg).
Proof.
  split; intros e H.
  - destruct (centralized_outcome_cases train_batch_size test_batch_size
                train_shuffle_buffer_size test_shuffle_buffer_size
                crop_shape t)
      as [[_ [msg E]] | [[items [_ [_ [msg E]]]] | [items [_ [_ [d E]]]]]];
      rewrite E in H.
    + injection H as <-. exists msg. reflexivity.
    + injection H as <-. exists msg. reflexivity.
    + discriminate H.
  - destruct (federated_outcome_cases train_batch_size test_batch_size
                train_epochs test_epochs
                train_shuffle_buffer_size test_shuffle_buffer_size
                crop_shape serializable t)
      as [[_ [msg E]]
         | [[items [_ [_ [msg E]]]]
         | [[items [_ [_ [_ [msg E]]]]]
         | [[items [_ [_ [_ [_ [msg E]]]]]]
         | [[items [_ [_ [_ [_ [_ [msg E]]]]]]]
         | [items [_ [_ [_ [_ [_ [d E]]]]]]]]]]]];
      rewrite E in H.
    + injection H as <-. exists msg. left. reflexivity.
    + injection H as <-. exists msg. right. reflexivity.
    + injection H as <-. exists msg. left. reflexivity.
    + injection H as <-. exists msg. right. reflexivity.
    + injection H as Ht _. destruct (trace_grows t Ht).
    + discriminate H.
Qed.

(** X8: for all arguments, each assembler calls [load_data] at most once:
    the trace after a call is the trace before it, and then the call has
    raised, or the trace before it followed by one load; no call returns
    without having loaded. *)
Theorem assemblers_load_at_most_once
    (train_batch_size test_batch_size train_epochs test_epochs : Z)
    (train_shuffle_buffer_size test_shuffle_buffer_size : Z)
    (crop_shape serializable : obj) (t : trace) :
  ((fst (get_centralized_datasets train_batch_size test_batch_size
           train_shuffle_buffer_size test_shuffle_buffer_size
           crop_shape t) = t
    /\ ~ succeeds
         (snd (get_centralized_datasets train_batch_size test_batch_size
                 train_shuffle_buffer_size test_shuffle_buffer_size
                 crop_shape t)))
   \/ fst (get_centralized_datasets train_batch_size test_batch_size
             train_shuffle_buffer_size test_shuffle_buffer_size
             crop_shape t) = t ++ [LoadData])
  /\ ((fst (get_federated_datasets train_batch_size test_batch_size
              train_epochs test_epochs
              train_shuffle_buffer_size test_shuffle_buffer_size
              crop_shape serializable t) = t
       /\ ~ succeeds
            (snd (get_federated_datasets train_batch_size test_batch_size
                    train_epochs test_epochs
                    train_shuffle_buffer_size test_shuffle_buffer_size
                    crop_shape serializable t)))
      \/ fst (get_federated_datasets train_batch_size test_batch_size
                train_epochs test_epochs
                train_shuffle_buffer_size test_shuffle_buffer_size
                crop_shape serializable t) = t ++ [LoadData]).
Proof.
  split.
  - destruct (centralized_outcome_cases train_batch_size test_batch_size
                train_shuffle_buffer_size test_shuffle_buffer_size
                crop_shape t)
      as [[_ [msg E]] | [[items [_ [_ [msg E]]]] | [items [_ [_ [d E]]]]]];
      rewrite E; simpl.
    + left. split; [reflexivity |]. intros [a Ea]. discriminate Ea.
    + left. split; [reflexivity |]. intros [a Ea]. discriminate Ea.
    + right. reflexivity.
  - destruct (federated_outcome_cases train_batch_size test_batch_size
                train_epochs test_epochs
                train_shuffle_buffer_size test_shuffle_buffer_size
                crop_shape serializable t)
      as [[_ [msg E]]
         | [[items [_ [_ [msg E]]]]
         | [[items [_ [_ [_ [msg E]]]]]
         | [[items [_ [_ [_ [_ [msg E]]]]]]
         | [[items [_ [_ [_ [_ [_ [msg E]]]]]]]
         | [items [_ [_ [_ [_ [_ [d E]]]]]]]]]]]];
      rewrite E; simpl;
      try (left; split; [reflexivity |]; intros [a Ea]; discriminate Ea);
      right; reflexivity.
Qed.

(** ** When the assemblers load the data *)

(** X9: [get_centralized_datasets] calls [load_data] exactly when the crop
    shape coerces to a tuple of 3 items: batch sizes and shuffle buffer
    sizes, of any value, are not looked at before the load. *)
Theorem centralized_loads_iff
    (train_batch_size test_batch_size : Z)
    (train_shuffle_buffer_size test_shuffle_buffer_size : Z)
    (crop_shape : obj) (t : trace) :
  fst (get_centralized_datasets train_batch_size test_batch_size
         train_shuffle_buffer_size test_shuffle_buffer_size crop_shape t)
  = t ++ [LoadData]
  <-> exists items,
        tuple crop_shape = Ok items /\ List.length items = 3%nat.
Proof.
  destruct (centralized_outcome_cases train_batch_size test_batch_size
              train_shuffle_buffer_size test_shuffle_buffer_size
              crop_shape t)
    as [[Hi [msg E]] | [[items [Ht [Hl [msg E]]]] | [items [Ht [Hl [d E]]]]]];
    rewrite E; simpl; split.
  - intros H. symmetry in H. destruct (trace_grows t H).
  - intros [items [Ht _]]. rewrite (tuple_Ok_Iterable _ _ Ht) in Hi.
    discriminate Hi.
  - intros H. symmetry in H. destruct (trace_grows t H).
  - intros [items' [Ht' Hl']]. rewrite Ht in Ht'. injection Ht' as <-.
    contradiction.
  - intros _. exists items. split; assumption.
  - intros _. reflexivity.
Qed.

(** X10: [get_federated_datasets] calls [load_data] exactly when the crop
    shape coerces to a tuple of 3 items, [serializable] is a [bool],
    [train_client_epochs_per_round] is at least 1 and
    [test_client_epochs_per_round] is at least 0: a test epoch count of 0
    does not stop the load, and batch sizes and shuffle buffer sizes are
    not looked at before it. *)
Theorem federated_loads_iff
    (train_batch_size test_batch_size train_epochs test_epochs : Z)
    (train_shuffle_buffer_size test_shuffle_buffer_size : Z)
    (crop_shape serializable : obj) (t : trace) :
  fst (get_federated_datasets train_batch_size test_batch_size
         train_epochs test_epochs
         train_shuffle_buffer_size test_shuffle_buffer_size
         crop_shape serializable t)
  = t ++ [LoadData]
  <-> (exists items,
         tuple crop_shape = Ok items /\ List.length items = 3%nat)
      /\ isinstance_bool serializable = true
      /\ 1 <= train_epochs
      /\ 0 <= test_epochs.
Proof.
  destruct (federated_outcome_cases train_batch_size test_batch_size
              train_epochs test_epochs
              train_shuffle_buffer_size test_shuffle_buffer_size
              crop_shape serializable t)
    as [[Hi [msg E]]
       | [[items [Ht [Hl [msg E]]]]
       | [[items [Ht [Hl [Hb [msg E]]]]]
       | [[items [Ht [Hl [Hb [He [msg E]]]]]]
       | [[items [Ht [Hl [Hb [H1 [H0 [msg E]]]]]]]
       | [items [Ht [Hl [Hb [H1 [H2 [d E]]]]]]]]]]]];
    rewrite E; simpl; split;
    try (intros H; symmetry in H; destruct (trace_grows t H)).
  - intros [[items [Ht _]] _]. rewrite (tuple_Ok_Iterable _ _ Ht) in Hi.
    discriminate Hi.
  - intros [[items' [Ht' Hl']] _]. rewrite Ht in Ht'. injection Ht' as <-.
    contradiction.
  - intros [_ [Hb' _]]. rewrite Hb in Hb'. discriminate Hb'.
  - intros [_ [_ [H1 H2]]]. lia.
  - intros _. split; [exists items; split; assumption |].
    repeat split; try assumption. lia.
  - intros _. reflexivity.
  - intros _. split; [exists items; split; assumption |].
    repeat split; try assumption. lia.
  - intros _. reflexivity.
Qed.

(** ** How the functions compose *)

(** X11: [get_centralized_datasets] yields what the computations of
    [get_federated_datasets], called with one epoch for train and test and
    [serializable=False], yield on the datasets pooled over all clients of
    their splits. *)
Theorem centralized_is_federated_on_pooled_clients
    (train_batch_size test_batch_size : Z)
    (train_shuffle_buffer_size test_shuffle_buffer_size : Z)
    (crop_shape : obj) (items : list obj) (t : trace) :
  tuple crop_shape = Ok items ->
  List.length items = 3%nat ->
  exists cifar_train cifar_test,
    get_federated_datasets train_batch_size test_batch_size 1 1
      train_shuffle_buffer_size test_shuffle_buffer_size
      crop_shape (PyBool false) t =
    (t ++ [LoadData], Ok (cifar_train, cifar_test))
    /\ get_centralized_datasets train_batch_size test_batch_size
         train_shuffle_buffer_size test_shuffle_buffer_size crop_shape t =
       (t ++ [LoadData],
        Ok (call (preprocess_fn cifar_train)
              (create_tf_dataset_from_all_clients
                 (raw_client_data cifar_train)),
            call (preprocess_fn cifar_test)
              (create_tf_dataset_from_all_clients
                 (raw_client_data cifar_test)))).
Proof.
  intros Ht Hl.
  destruct (federated_returns train_batch_size test_batch_size 1 1
              train_shuffle_buffer_size test_shuffle_buffer_size
              _ _ t items false Ht Hl eq_refl ltac:(lia) ltac:(lia))
    as [ftrain [ftest [E [Ctrain Ctest]]]].
  destruct (centralized_returns train_batch_size test_batch_size
              train_shuffle_buffer_size test_shuffle_buffer_size
              crop_shape t items Ht Hl)
    as [gtrain [gtest [_ [_ [E' [Dtrain Dtest]]]]]].
  exists (preprocess (Cifar100 Train) ftrain),
         (preprocess (Cifar100 Test) ftest).
  split; [exact E |].
  rewrite E', Dtrain, Dtest. simpl. rewrite Ctrain, Ctest. reflexivity.
Qed.

Lemma centralized_is_federated_on_pooled_clients_witness :
  exists cifar_train cifar_test,
    get_federated_datasets 20 100 1 1 10000 1
      (PyTuple CIFAR_SHAPE) (PyBool false) [] =
    ([] ++ [LoadData], Ok (cifar_train, cifar_test))
    /\ get_centralized_datasets 20 100 10000 1 (PyTuple CIFAR_SHAPE) [] =
       ([] ++ [LoadData],
        Ok (call (preprocess_fn cifar_train)
              (create_tf_dataset_from_all_clients
                 (raw_client_data cifar_train)),
            call (preprocess_fn cifar_test)
              (create_tf_dataset_from_all_clients
                 (raw_client_data cifar_test)))).
Proof.
  apply (centralized_is_federated_on_pooled_clients 20 100 10000 1
           (PyTuple CIFAR_SHAPE) CIFAR_SHAPE []).
  - reflexivity.
  - reflexivity.
Defined.

(** X12: with [serializable=True], the map functions of both datasets
    returned by [get_federated_datasets] are free of random operations:
    over every runtime, applied to a record they give an outcome that does
    not depend on the state of the random generator, and leave that state
    unchanged. *)
Theorem federated_serializable_is_stateless
    (train_batch_size test_batch_size train_epochs test_epochs : Z)
    (train_shuffle_buffer_size test_shuffle_buffer_size : Z)
    (crop_shape : obj) (items : list obj) (t : trace) :
  tuple crop_shape = Ok items ->
  List.length items = 3%nat ->
  1 <= train_epochs ->
  1 <= test_epochs ->
  exists cifar_train cifar_test,
    get_federated_datasets train_batch_size test_batch_size
      train_epochs test_epochs
      train_shuffle_buffer_size test_shuffle_buffer_size
      crop_shape (PyBool true) t =
    (t ++ [LoadData], Ok (cifar_train, cifar_test))
    /\ forall cd, cd = cifar_train \/ cd = cifar_test ->
       forall client_id,
       exists f,
         map_func_of (create_tf_dataset_for_client cd client_id) = Some f
         /\ forall (R : Runtime) (x : record (value R)) (g1 g2 : rng R),
              apply_map f x g1 = (fst (apply_map f x g2), g1).
Proof.
  intros Ht Hl H1 H2.
  destruct (federated_returns train_batch_size test_batch_size
              train_epochs test_epochs
              train_shuffle_buffer_size test_shuffle_buffer_size
              _ _ t items true Ht Hl eq_refl H1 H2)
    as [ftrain [ftest [E [Ctrain Ctest]]]].
  exists (preprocess (Cifar100 Train) ftrain),
         (preprocess (Cifar100 Test) ftest).
  split; [exact E |].
  assert (Hstateless : forall bs (R : Runtime) (x : record (value R)) g1 g2,
            apply_map (build_image_map (PyInt bs :: items) false) x g1 =
            (fst (apply_map (build_image_map (PyInt bs :: items) false) x g2),
             g1)).
  { intros bs R x g1 g2.
    destruct (apply_map_stateless R x
                (build_image_map (PyInt bs :: items) false)) as [r Hr].
    - apply distorts_build_image_map. simpl. lia.
    - rewrite !Hr. reflexivity. }
  intros cd [-> | ->] client_id; unfold create_tf_dataset_for_client; simpl.
  - rewrite Ctrain. eexists. split; [reflexivity |]. apply Hstateless.
  - rewrite Ctest. eexists. split; [reflexivity |]. apply Hstateless.
Qed.

Lemma federated_serializable_is_stateless_witness :
  exists cifar_train cifar_test,
    get_federated_datasets 20 100 1 1 NUM_EXAMPLES_PER_CLIENT 1
      (PyTuple CIFAR_SHAPE) (PyBool true) [] =
    ([] ++ [LoadData], Ok (cifar_train, cifar_test))
    /\ forall cd, cd = cifar_train \/ cd = cifar_test ->
       forall client_id,
       exists f,
         map_func_of (create_tf_dataset_for_client cd client_id) = Some f
         /\ forall (R : Runtime) (x : record (value R)) (g1 g2 : rng R),
              apply_map f x g1 = (fst (apply_map f x g2), g1).
Proof.
  apply (federated_serializable_is_stateless 20 100 1 1
           NUM_EXAMPLES_PER_CLIENT 1 (PyTuple CIFAR_SHAPE) CIFAR_SHAPE []).
  - reflexivity.
  - reflexivity.
  - lia.
  - lia.
Defined.

Lemma build_image_map_no_index_error
    (crop_shape : list obj) (distort : bool) (x : example) :
  (3 <= List.length crop_shape)%nat ->
  ~ raises_IndexError (build_image_map crop_shape distort x).
Proof.
  intros H [msg E]. destruct distort; [discriminate E |].
  destruct crop_shape as [| a [| h [| w rest]]]; simpl in H; try lia.
  discriminate E.
Qed.

(** X13: the map functions of the datasets that the assemblers return
    never raise the [IndexError] of a short crop shape: whenever
    [get_federated_datasets] (for either value of [serializable]) or
    [get_centralized_datasets] returns, each returned dataset has a map
    function, built from the batch size followed by the 3 items, that
    raises no [IndexError] on any example. *)
Theorem assembled_map_functions_no_index_error
    (train_batch_size test_batch_size train_epochs test_epochs : Z)
    (train_shuffle_buffer_size test_shuffle_buffer_size : Z)
    (crop_shape : obj) (items : list obj) (serializable : bool) (t : trace) :
  tuple crop_shape = Ok items ->
  List.length items = 3%nat ->
  (forall t' cifar_train cifar_test,
     get_federated_datasets train_batch_size test_batch_size
       train_epochs test_epochs
       train_shuffle_buffer_size test_shuffle_buffer_size
       crop_shape (PyBool serializable) t =
     (t', Ok (cifar_train, cifar_test)) ->
     forall cd, cd = cifar_train \/ cd = cifar_test ->
     forall client_id,
     exists f,
       map_func_of (create_tf_dataset_for_client cd client_id) = Some f
       /\ forall x, ~ raises_IndexError (f x))
  /\ (forall t' cifar_train cifar_test,
        get_centralized_datasets train_batch_size test_batch_size
          train_shuffle_buffer_size test_shuffle_buffer_size crop_shape t =
        (t', Ok (cifar_train, cifar_test)) ->
        forall d, d = cifar_train \/ d = cifar_test ->
        exists f,
          map_func_of d = Some f /\ forall x, ~ raises_IndexError (f x)).
Proof.
  intros Ht Hl.
  assert (Hno : forall bs distort x,
            ~ raises_IndexError
                (build_image_map (PyInt bs :: items) distort x)).
  { intros bs distort x. apply build_image_map_no_index_error.
    simpl. lia. }
  split.
  - intros t' cifar_train cifar_test H.
    destruct (Z.lt_ge_cases train_epochs 1) as [H1 | H1].
    { rewrite (federated_train_epochs _ _ _ _ _ _ _ _ _ items serializable
                 Ht Hl eq_refl H1) in H.
      discriminate H. }
    destruct (Z.lt_ge_cases test_epochs 0) as [H2 | H2].
    { rewrite (federated_test_epochs_negative _ _ _ _ _ _ _ _ _ items
                 serializable Ht Hl eq_refl H1 H2) in H.
      discriminate H. }
    destruct (Z.eq_dec test_epochs 0) as [H0 | H0].
    { rewrite (federated_test_epochs_zero _ _ _ _ _ _ _ _ _ items
                 serializable Ht Hl eq_refl H1 H0) in H.
      discriminate H. }
    assert (H3 : 1 <= test_epochs) by lia.
    destruct (federated_returns train_batch_size test_batch_size
                train_epochs test_epochs
                train_shuffle_buffer_size test_shuffle_buffer_size
                _ _ t items serializable Ht Hl eq_refl H1 H3)
      as [ftrain [ftest [E [Ctrain Ctest]]]].
    rewrite E in H. injection H as _ <- <-.
    intros cd [-> | ->] client_id; unfold create_tf_dataset_for_client; simpl.
    + rewrite Ctrain. eexists. split; [reflexivity |]. apply Hno.
    + rewrite Ctest. eexists. split; [reflexivity |]. apply Hno.
  - intros t' cifar_train cifar_test H.
    destruct (centralized_returns train_batch_size test_batch_size
                train_shuffle_buffer_size test_shuffle_buffer_size
                crop_shape t items Ht Hl)
      as [gtrain [gtest [_ [_ [E [Dtrain Dtest]]]]]].
    rewrite E in H. injection H as _ <- <-.
    intros d [-> | ->].
    + rewrite Dtrain. eexists. split; [reflexivity |]. apply Hno.
    + rewrite Dtest. eexists. split; [reflexivity |]. apply Hno.
Qed.

Lemma assembled_map_functions_no_index_error_witness :
  (forall t' cifar_train cifar_test,
     get_federated_datasets 20 100 1 1 NUM_EXAMPLES_PER_CLIENT 1
       (PyTuple CIFAR_SHAPE) (PyBool false) [] =
     (t', Ok (cifar_train, cifar_test)) ->
     forall cd, cd = cifar_train \/ cd = cifar_test ->
     forall client_id,
     exists f,
       map_func_of (create_tf_dataset_for_client cd client_id) = Some f
       /\ forall x, ~ raises_IndexError (f x))
  /\ (forall t' cifar_train cifar_test,
        get_centralized_datasets 20 100 NUM_EXAMPLES_PER_CLIENT 1
          (PyTuple CIFAR_SHAPE) [] =
        (t', Ok (cifar_train, cifar_test)) ->
        forall d, d = cifar_train \/ d = cifar_test ->
        exists f,
          map_func_of d = Some f /\ forall x, ~ raises_IndexError (f x)).
Proof.
  apply (assembled_map_functions_no_index_error 20 100 1 1
           NUM_EXAMPLES_PER_CLIENT 1 (PyTuple CIFAR_SHAPE) CIFAR_SHAPE
           false []).
  - reflexivity.
  - reflexivity.
Defined.

(** X14: replacing a shuffle buffer size of at most 1 by 1 before calling
    [create_preprocess_fn], as both assemblers do, changes nothing:
    [create_preprocess_fn] gives the same outcome for the size as given.
    The replacement is idempotent. *)
Theorem shuffle_buffer_size_normalized_twice
    (num_epochs batch_size shuffle_buffer_size : Z)
    (crop_shape : list obj) (distort_image : bool) (num_parallel_calls : Z) :
  create_preprocess_fn num_epochs batch_size
    (if shuffle_buffer_size <=? 1 then 1 else shuffle_buffer_size)
    crop_shape distort_image num_parallel_calls =
  create_preprocess_fn num_epochs batch_size shuffle_buffer_size
    crop_shape distort_image num_parallel_calls.
Proof.
  unfold create_preprocess_fn.
  destruct (shuffle_buffer_size <=? 1) eqn:H.
  - reflexivity.
  - rewrite H. reflexivity.
Qed.
